(** * chatbot/server.py: the conversation context and the relay loop

    A shallow embedding of [src/chatbot/server.py].  The module keeps four
    globals ([prompt], [visible], [remember], [context]) that are shared by
    the Flask request handlers ([index], [send_message]) and by the
    background thread running [send_update].  The thread blocks in two
    places: inside [openai.ChatCompletion.create] (line 80, called from
    [ask]) and on the response stream (line 186).  The embedding is a
    labelled transition system whose labels are the request handlers and
    the three ways the thread moves on: one pass over the loop head, one
    reply of [create], one item of the stream.  Everything the thread does
    between two blocking points is one transition. *)

From Stdlib Require Import String Ascii List ZArith Lia Bool.
From Stdlib Require HexString.
Import ListNotations.
Open Scope string_scope.
Open Scope Z_scope.

(** ** Python strings and lists *)

(** A text is the sequence of its characters, one [ascii] each, so that
    [String.length] is Python's [len]. *)

Module Py.

(** [len(s)] *)
Definition len (s : string) : Z := Z.of_nat (String.length s).

Fixpoint take (n : nat) (s : string) : string :=
  match n, s with
  | S n', String c s' => String c (take n' s')
  | _, _ => EmptyString
  end.

Fixpoint drop (n : nat) (s : string) : string :=
  match n, s with
  | S n', String _ s' => drop n' s'
  | _, _ => s
  end.

(** Position denoted by a slice bound [i] in a sequence of length [n]:
    a negative bound counts from the end, and the result is clipped to
    [0..n]. *)
Definition bound (i n : Z) : nat :=
  Z.to_nat (if i <? 0 then Z.max (i + n) 0 else Z.min i n).

(** [s[:stop]] *)
Definition slice_to (stop : Z) (s : string) : string :=
  take (bound stop (len s)) s.

(** [s[start:]] *)
Definition slice_from (start : Z) (s : string) : string :=
  drop (bound start (len s)) s.

(** [s.startswith(pre)] *)
Definition startswith (pre s : string) : bool := String.prefix pre s.

(** [needle in hay] *)
Fixpoint contains (needle hay : string) : bool :=
  String.prefix needle hay ||
  match hay with
  | EmptyString => false
  | String _ hay' => contains needle hay'
  end.

(** ['\n'] *)
Definition nl : string := String (ascii_of_nat 10) EmptyString.

(** [sep.join(parts)] *)
Definition join (sep : string) (parts : list string) : string :=
  String.concat sep parts.

(** [l.pop()]: the list without its last item; [None] stands for the
    [IndexError] raised on an empty list. *)
Definition pop {A} (l : list A) : option (list A) :=
  match l with
  | [] => None
  | _ => Some (removelast l)
  end.

End Py.

(** ** Data *)

Inductive Role := system | user | assistant.

(** An entry of [context]: [{"role": r, "content": c}]. *)
Record message := Message { role : Role; content : string }.

(** The payload of [socketio.emit('update', {'update': u, 'voice': v})]. *)
Record event := Event { update : string; voice : string }.

(** Where the [send_update] thread stands. *)
Inductive location :=
| Polling                   (* line 175, top of [while True] *)
| Requesting (p : string)   (* line 80, inside [ask]; [p] is the local [prompt] of [ask] *)
| Streaming                 (* line 186, waiting for the next event of [response] *)
| Dead.                     (* the thread ended with an unhandled exception *)

Record state := State {
  prompt : string;                  (* global, line 60 *)
  visible : bool;                   (* global, line 61 *)
  remember : bool;                  (* global, line 62 *)
  context : list message;           (* global, line 68 *)
  emitted : list event;             (* what [socketio.emit] has sent, oldest first *)
  at_ : location;
  completion_text : option string   (* local of [send_update]; [None] while unbound *)
}.

Definition set_prompt (x : string) (s : state) : state :=
  State x (visible s) (remember s) (context s) (emitted s) (at_ s) (completion_text s).
Definition set_visible (x : bool) (s : state) : state :=
  State (prompt s) x (remember s) (context s) (emitted s) (at_ s) (completion_text s).
Definition set_remember (x : bool) (s : state) : state :=
  State (prompt s) (visible s) x (context s) (emitted s) (at_ s) (completion_text s).
Definition set_context (x : list message) (s : state) : state :=
  State (prompt s) (visible s) (remember s) x (emitted s) (at_ s) (completion_text s).
Definition set_at (x : location) (s : state) : state :=
  State (prompt s) (visible s) (remember s) (context s) (emitted s) x (completion_text s).
Definition set_completion_text (x : option string) (s : state) : state :=
  State (prompt s) (visible s) (remember s) (context s) (emitted s) (at_ s) x.

(** [socketio.emit('update', e)] *)
Definition emit (e : event) (s : state) : state :=
  State (prompt s) (visible s) (remember s) (context s) (emitted s ++ [e]) (at_ s)
        (completion_text s).

(** [context.append(m)] *)
Definition append (m : message) (s : state) : state :=
  set_context (context s ++ [m]) s.

(** What the outside world answers. *)

(** The outcome of [requests.get(url)] followed by the HTML parse: either a
    response with its status code and the texts of its [<p>] elements, or
    an exception somewhere in the [try] block of lines 112-123. *)
Inductive fetched :=
| Response (status_code : Z) (paragraphs : list string)
| FetchRaises.

(** The outcome of one call of [openai.ChatCompletion.create]. *)
Inductive created :=
| Created                       (* a response stream is returned *)
| OpenAIError (str_e : string)  (* [openai.error.OpenAIError] with [str(e)] *)
| OtherException.               (* an exception of any other class *)

(** The outcome of asking [response] for its next event. *)
Inductive streamed :=
| Delta (content : option string)  (* an event; its delta has a content or none *)
| StopIteration                    (* the stream is exhausted *)
| StreamRaises.                    (* the iterator, or decoding the event, raises *)

Inductive action :=
| PageLoad                                         (* GET /, runs [index] *)
| Submit (p : string) (show : bool) (web : fetched) (* POST /send_message *)
| Poll                                              (* the thread runs lines 175-183 *)
| Create (r : created)                              (* [create] returns or raises *)
| Next (e : streamed).                              (* the stream moves on *)

(** The thread is inside an exchange. *)
Definition busy (s : state) : bool :=
  match at_ s with
  | Requesting _ | Streaming => true
  | Polling | Dead => false
  end.

(** ** The program *)

Section Server.

(** Read once when the module is loaded (lines 53 and 67). *)
Variable baseprompt : string.
Variable DEBUG : bool.

(** [{"role": "system", "content": baseprompt}] *)
Definition system_message : message := Message system baseprompt.

(** The globals after lines 60-68, with the thread at the top of its loop. *)
Definition initial : state :=
  State "" true true [system_message] [] Polling None.

(** *** Request handlers *)

(** [index], lines 130-134. *)
Definition index (s : state) : state := set_context [system_message] s.

(** [extract_text_from_blog], lines 110-127.  Both failure branches only
    print, so the function falls off its end and returns Python's [None],
    here [None]. *)
Definition extract_text_from_blog (web : fetched) : option string :=
  match web with
  | Response status_code paragraphs =>
      if status_code =? 200 then Some (Py.join Py.nl paragraphs) else None
  | FetchRaises => None
  end.

(** How a request handler ends. *)
Inductive served := Returned | Raised.

(** [send_message], lines 144-163, on [data = {"prompt": p, "show": show}].
    With [blogtext = None], [len(blogtext)] on line 158 raises [TypeError]
    after lines 155-156 have already run. *)
Definition send_message (p : string) (show : bool) (web : fetched) (s : state)
  : state * served :=
  let s := set_visible show s in
  if Py.startswith "http" p then
    let s := set_remember false (set_visible false s) in
    match extract_text_from_blog web with
    | Some blogtext =>
        (set_prompt ("Summarize the following text:" ++ Py.nl ++ blogtext)
           (emit (Event ("[Reading: " ++ p ++ "]") "user") s), Returned)
    | None => (s, Raised)
    end
  else (set_prompt p s, Returned).

(** *** [ask] *)

(** Line 93: [prompt[:len(prompt)//4] + " ... " + prompt[-len(prompt)//4:]]. *)
Definition cut_middle (p : string) : string :=
  Py.slice_to (Py.len p / 4) p ++ " ... " ++ Py.slice_from ((- Py.len p) / 4) p.

(** Lines 91-103, run after [context.pop()]: the new local [prompt], the
    new [context], and what is emitted. *)
Definition ladder (p : string) (ctx : list message)
  : string * list message * list event :=
  if 1000 <? Py.len p then
    (cut_middle p, ctx, [])
  else if (4 <? length ctx)%nat then
    (p, (firstn 1 ctx ++ skipn 3 ctx)%list, [])
  else
    (p, [system_message], [Event "[Memory Reset]" "user"]).

(** Lines 79-80: the user turn is appended and [create] is called. *)
Definition request (p : string) (s : state) : state :=
  set_at (Requesting p) (append (Message user p) s).

(** The [except:] block of [send_update], lines 197-201. *)
Definition recover (s : state) : state :=
  set_context [system_message]
    (emit (Event "An error occurred - unable to complete." "ai") s).

(** Lines 203-206.  With [DEBUG] set, line 206 reads [completion_text],
    which raises [UnboundLocalError] outside any [try] when line 184 has
    never run. *)
Definition finish (s : state) : state :=
  let s := set_prompt "" (emit (Event "" "done") s) in
  if DEBUG then
    match completion_text s with
    | Some _ => set_at Polling s
    | None => set_at Dead s
    end
  else set_at Polling s.

(** [create] returned: lines 105-108, then line 184.  An [IndexError]
    from [context.pop()] would leave [ask] and reach line 197. *)
Definition ask_returns (s : state) : state :=
  if remember s then
    set_at Streaming (set_completion_text (Some "") s)
  else
    let s := set_remember true s in
    match Py.pop (context s) with
    | Some ctx => set_at Streaming (set_completion_text (Some "") (set_context ctx s))
    | None => finish (recover s)
    end.

(** [create] raised [OpenAIError]: lines 87-103, then the loop of line 76
    goes round, since [response] is still [False]. *)
Definition ask_except (str_e p : string) (s : state) : state :=
  match Py.pop (context s) with
  | None => finish (recover s)
  | Some ctx =>
      if Py.contains "maximum context length" str_e then
        let '(p', ctx', notices) := ladder p ctx in
        request p' (fold_left (fun s e => emit e s) notices (set_context ctx' s))
      else
        request p (set_context ctx s)
  end.

(** *** [send_update] *)

(** Lines 175-183, up to the first call of [create]. *)
Definition poll (s : state) : state :=
  if (prompt s =? "")%string then s
  else
    let s' := if visible s then emit (Event (prompt s) "user") s else s in
    request (prompt s) s'.

Definition on_create (r : created) (p : string) (s : state) : state :=
  match r with
  | Created => ask_returns s
  | OpenAIError str_e => ask_except str_e p s
  | OtherException => finish (recover s)
  end.

(** Lines 186-196 for one item of the stream. *)
Definition on_event (e : streamed) (s : state) : state :=
  match e with
  | Delta (Some chunk) =>
      match completion_text s with
      | Some text =>
          emit (Event chunk "ai") (set_completion_text (Some (text ++ chunk)) s)
      | None => finish (recover s)
      end
  | Delta None => s
  | StopIteration =>
      match completion_text s with
      | Some text => finish (append (Message assistant text) s)
      | None => finish (recover s)
      end
  | StreamRaises => finish (recover s)
  end.

(** *** The whole system *)

(** A handler may run whenever the thread is blocked; a move of the
    thread needs the thread to be at the matching place. *)
Definition step (s : state) (a : action) : option state :=
  match a, at_ s with
  | PageLoad, _ => Some (index s)
  | Submit p show web, _ => Some (fst (send_message p show web s))
  | Poll, Polling => Some (poll s)
  | Create r, Requesting p => Some (on_create r p s)
  | Next e, Streaming => Some (on_event e s)
  | _, _ => None
  end.

Fixpoint run (s : state) (tr : list action) : option state :=
  match tr with
  | [] => Some s
  | a :: tr' =>
      match step s a with
      | Some s' => run s' tr'
      | None => None
      end
  end.

Definition reachable (s : state) : Prop := exists tr, run initial tr = Some s.

(** *** Observations on runs *)

(** [index] runs while a call of [create] is in flight. *)
Definition resets_in_flight (s : state) (a : action) : bool :=
  match a, at_ s with
  | PageLoad, Requesting _ => true
  | _, _ => false
  end.

(** No step of the run from [s] along [tr] is a page load during a call of
    [create]. *)
Fixpoint calm (s : state) (tr : list action) : bool :=
  match tr with
  | [] => true
  | a :: tr' =>
      negb (resets_in_flight s a) &&
      match step s a with
      | Some s' => calm s' tr'
      | None => true
      end
  end.

(** The text that action [a] makes the thread take out of the global
    [prompt] and hand to [ask] (line 183), if any. *)
Definition picked (s : state) (a : action) : list string :=
  match a, at_ s with
  | Poll, Polling => if (prompt s =? "")%string then [] else [prompt s]
  | _, _ => []
  end.

(** All texts handed to [ask] along the run from [s]. *)
Fixpoint picks (s : state) (tr : list action) : list string :=
  match tr with
  | [] => []
  | a :: tr' =>
      (picked s a ++
       match step s a with
       | Some s' => picks s' tr'
       | None => []
       end)%list
  end.

(** Index 0 of a context is the system turn holding the base prompt. *)
Definition system_first (ctx : list message) : Prop :=
  hd_error ctx = Some system_message.

(** Between two transitions the context starts with the system turn, and
    while [create] is in flight it also carries the turn appended on
    line 79. *)
Definition settled (s : state) : Prop :=
  match at_ s with
  | Requesting _ =>
      exists ctx m, system_first ctx /\ context s = (ctx ++ [m])%list
  | _ => system_first (context s)
  end.

(** [s'] is [s] after lines 197-204: the apology and the end marker have
    been sent, the context is back to the system turn and the global
    [prompt] is empty.  The thread is back at the top of its loop unless
    line 206 finds [completion_text] unbound. *)
Definition failed (s s' : state) : Prop :=
  emitted s' =
    (emitted s ++ [Event "An error occurred - unable to complete." "ai";
                   Event "" "done"])%list /\
  context s' = [system_message] /\
  prompt s' = "" /\
  (DEBUG = false \/ completion_text s <> None -> at_ s' = Polling).

(** [s'] is [s] after the thread has left an exchange: what has been sent
    since ends with the end marker, preceded by the apology or by nothing,
    no further end marker among it, and the global [prompt] is empty. *)
Definition ended (s s' : state) : Prop :=
  busy s' = false /\
  (exists pre,
     emitted s' = (emitted s ++ pre ++ [Event "" "done"])%list /\
     (pre = [] \/
      pre = [Event "An error occurred - unable to complete." "ai"])) /\
  prompt s' = "" /\
  (DEBUG = false \/ completion_text s <> None -> at_ s' = Polling).

(** One round of lines 91-103 on the pair of [ask]'s local [prompt] and the
    popped [context]. *)
Definition shrink (x : string * list message) : string * list message :=
  fst (ladder (fst x) (snd x)).

End Server.

(** The text that a submission leaves in the global [prompt]; [None] when
    [send_message] raises before line 160. *)
Definition submitted (p : string) (web : fetched) : option string :=
  if Py.startswith "http" p then
    match extract_text_from_blog web with
    | Some blogtext => Some ("Summarize the following text:" ++ Py.nl ++ blogtext)
    | None => None
    end
  else Some p.

Definition is_submit (a : action) : bool :=
  match a with Submit _ _ _ => true | _ => false end.

(** The moves of the [send_update] thread, as opposed to request handlers. *)
Definition is_move (a : action) : bool :=
  match a with PageLoad | Submit _ _ _ => false | _ => true end.

Definition moves (tr : list action) : list action := filter is_move tr.

(** The contents carried by a sequence of deltas, those without content
    skipped (line 188). *)
Definition fragments (ds : list (option string)) : list string :=
  flat_map (fun d => match d with Some chunk => [chunk] | None => [] end) ds.

Definition joined (chunks : list string) : string :=
  fold_right String.append "" chunks.

Definition ai (chunk : string) : event := Event chunk "ai".
Definition done : event := Event "" "done".
Definition apology : event := Event "An error occurred - unable to complete." "ai".
Definition memory_reset : event := Event "[Memory Reset]" "user".

Definition ai_events (es : list event) : list event :=
  filter (fun e => (voice e =? "ai")%string) es.

Definition dones (es : list event) : nat :=
  length (filter (fun e => (voice e =? "done")%string) es).

(** The spec's words for line 93: the first quarter of a text is its first
    [n/4] characters, the last quarter its last [n/4] characters, rounded
    up. *)
Definition first_quarter (p : string) : string :=
  Py.take (String.length p / 4) p.

Definition last_quarter (p : string) : string :=
  Py.drop (String.length p - (String.length p + 3) / 4) p.

(** Sample states used in the examples. *)

(** "hi" has been submitted and [create] is in flight. *)
Definition asking_hi : state :=
  State "hi" true true
        [Message system "base"; Message user "hi"]
        [Event "hi" "user"] (Requesting "hi") None.

(** The stream answering "hi" has delivered "Hel" so far. *)
Definition streaming_hi : state :=
  State "hi" true true
        [Message system "base"; Message user "hi"]
        [Event "hi" "user"; Event "Hel" "ai"] Streaming (Some "Hel").

(** A blog has been fetched and its summary is about to be requested. *)
Definition blog_submitted : state :=
  State ("Summarize the following text:" ++ Py.nl ++ "Once upon a time")
        false false [Message system "base"]
        [Event "[Reading: http://blog.example/post]" "user"] Polling None.

(** A prompt of 1004 characters. *)
Definition long_prompt : string :=
  joined (repeat "abcd" 251).

(** A context of six turns. *)
Definition six_turns : list message :=
  [Message system "base";
   Message user "one"; Message assistant "1";
   Message user "two"; Message assistant "2";
   Message user "three"].

(** Texts of two provider errors. *)
Definition overflow_text : string :=
  "This model's maximum context length is 4097 tokens".

Definition rate_limit_text : string := "Rate limit reached for requests".

(** [create] is in flight for prompt [p] on top of context [ctx]. *)
Definition asking (p : string) (ctx : list message) : state :=
  State p true true (ctx ++ [Message user p]) [] (Requesting p) None.


(** ** The remaining functions *)

(** Line 43. *)
Definition VERSION : string := "v0.3".

(** [version], lines 137-141: the value sent under the key 'version'. *)
Definition version (DEBUG : bool) : string :=
  if DEBUG then VERSION ++ " DEBUG MODE" else VERSION.

(** A character of a Python text, given by its code point: texts handed
    to [string_to_hex] may hold any character, not only those below 256. *)
Definition character : Type := N.

(** [ord(char)]: the code point of the character. *)
Definition ord (char : character) : N := char.

(** [chr(n)] *)
Definition chr (n : N) : character := n.

(** [hex(n)] for [n >= 0]: "0x" and the digits of [n] in base 16, lower
    case, without leading zeros. *)
Definition hex (n : N) : string := HexString.of_N n.

(** [int(h, 16)] for a text [h] written by [hex]. *)
Definition int16 (h : string) : N := HexString.to_N h.

(** [string_to_hex], lines 166-168, on the characters of [input_string]. *)
Definition string_to_hex (input_string : list character) : list string :=
  map (fun char => hex (ord char)) input_string.

(** The way back: [[chr(int(h, 16)) for h in hex_values]]. *)
Definition hex_to_string (hex_values : list string) : list character :=
  map (fun h => chr (int16 h)) hex_values.

(** The characters of a text whose characters are all below 256. *)
Definition code_points (s : string) : list character :=
  map N_of_ascii (list_ascii_of_string s).

(** ** Further observations on runs *)

(** The stream delivers the deltas [ds]. *)
Definition deltas (ds : list (option string)) : list action :=
  map (fun d => Next (Delta d)) ds.

(** One exchange that goes through at the first call of [create]: the
    thread picks the prompt up, [create] returns, the stream delivers [ds]
    and ends. *)
Definition exchange (ds : list (option string)) : list action :=
  Poll :: Create Created :: (deltas ds ++ [Next StopIteration])%list.

Definition no_submit (tr : list action) : bool :=
  forallb (fun a => negb (is_submit a)) tr.

(** 1 while the thread is inside an exchange, 0 otherwise. *)
Definition in_exchange (s : state) : nat := if busy s then 1%nat else 0%nat.

(** A text that [send_message] stores as it is and that the thread picks
    up: not empty and not starting with "http". *)
Definition plain (p : string) : bool :=
  negb (p =? "")%string && negb (Py.startswith "http" p).




(** [s] after [es] have been sent. *)
Definition sent (es : list event) (s : state) : state :=
  State (prompt s) (visible s) (remember s) (context s) (emitted s ++ es)
        (at_ s) (completion_text s).

(** "Hello" has been submitted and waits for the thread. *)
Definition hello_pending : state :=
  State "Hello" true true [Message system "base"] [] Polling None.

(** A reply in two fragments, with a delta without content in between. *)
Definition two_fragments : list (option string) :=
  [Some "Hi"; None; Some " there"].

(** * Properties *)

(** ** Strings and slices *)

Lemma append_assoc (a b c : string) : (a ++ b) ++ c = a ++ (b ++ c).
Proof. induction a as [|x a IH]; simpl; [reflexivity | now rewrite IH]. Qed.

Lemma append_empty_r (a : string) : a ++ "" = a.
Proof. induction a as [|x a IH]; simpl; [reflexivity | now rewrite IH]. Qed.

Lemma length_append (a b : string) :
  String.length (a ++ b) = (String.length a + String.length b)%nat.
Proof. induction a as [|x a IH]; simpl; [reflexivity | now rewrite IH]. Qed.

Lemma take_drop (n : nat) (s : string) : Py.take n s ++ Py.drop n s = s.
Proof.
  revert s; induction n as [|n IH]; intros [|c s]; simpl; try reflexivity.
  now rewrite IH.
Qed.

Lemma length_take (n : nat) (s : string) :
  String.length (Py.take n s) = Nat.min n (String.length s).
Proof.
  revert s; induction n as [|n IH]; intros [|c s]; simpl; try reflexivity.
  now rewrite IH.
Qed.

Lemma length_drop (n : nat) (s : string) :
  String.length (Py.drop n s) = (String.length s - n)%nat.
Proof.
  revert s; induction n as [|n IH]; intros [|c s]; simpl; try reflexivity.
  now rewrite IH.
Qed.

(** The slices of line 93 are the two quarters. *)
Lemma slice_to_quarter (p : string) :
  Py.slice_to (Py.len p / 4) p = first_quarter p.
Proof.
  unfold Py.slice_to, first_quarter, Py.bound, Py.len. f_equal.
  set (n := String.length p).
  assert (H : 0 <= Z.of_nat n / 4 <= Z.of_nat n)
    by (Z.to_euclidean_division_equations; lia).
  destruct (Z.ltb_spec (Z.of_nat n / 4) 0) as [Hneg|_]; [lia|].
  rewrite Z.min_l by lia.
  rewrite <- (Nat2Z.id (n / 4)), Nat2Z.inj_div. reflexivity.
Qed.

Lemma slice_from_quarter (p : string) :
  Py.slice_from ((- Py.len p) / 4) p = last_quarter p.
Proof.
  unfold Py.slice_from, last_quarter, Py.bound, Py.len. f_equal.
  set (n := String.length p).
  assert (Hq : Z.of_nat ((n + 3) / 4) = (Z.of_nat n + 3) / 4)
    by (rewrite Nat2Z.inj_div, Nat2Z.inj_add; reflexivity).
  assert (Hc : (- Z.of_nat n) / 4 = - ((Z.of_nat n + 3) / 4))
    by (Z.to_euclidean_division_equations; lia).
  assert (Hle : 0 <= (Z.of_nat n + 3) / 4 <= Z.of_nat n)
    by (Z.to_euclidean_division_equations; lia).
  rewrite Hc.
  destruct (Z.ltb_spec (- ((Z.of_nat n + 3) / 4)) 0) as [Hneg|Hpos].
  - rewrite Z.max_l by lia. lia.
  - assert (n = 0%nat) by (Z.to_euclidean_division_equations; lia).
    subst n. rewrite H in *. reflexivity.
Qed.

Example cut_middle_nine : cut_middle "abcdefghi" = "ab ... ghi".
Proof. reflexivity. Qed.

Example cut_middle_long : Py.len (cut_middle long_prompt) = 507.
Proof. reflexivity. Qed.

Lemma cut_middle_quarters (p : string) :
  cut_middle p = first_quarter p ++ " ... " ++ last_quarter p.
Proof. unfold cut_middle. now rewrite slice_to_quarter, slice_from_quarter. Qed.

Lemma length_first_quarter (p : string) :
  String.length (first_quarter p) = (String.length p / 4)%nat.
Proof.
  unfold first_quarter. rewrite length_take.
  apply Nat.min_l. apply Nat.Div0.div_le_upper_bound. lia.
Qed.

Lemma length_last_quarter (p : string) :
  String.length (last_quarter p) = ((String.length p + 3) / 4)%nat.
Proof.
  unfold last_quarter. rewrite length_drop.
  assert ((String.length p + 3) / 4 <= String.length p)%nat.
  { destruct (String.length p) as [|n]; [reflexivity|].
    apply Nat.Div0.div_le_upper_bound. lia. }
  lia.
Qed.

Lemma drop_drop (n m : nat) (s : string) :
  Py.drop n (Py.drop m s) = Py.drop (m + n) s.
Proof.
  revert s; induction m as [|m IH]; intros s; [reflexivity|].
  destruct s as [|c s]; simpl; [now destruct n | apply IH].
Qed.

(** The two quarters are the two ends of the text: what line 93 leaves out
    lies between them. *)
Lemma quarters_are_ends (p : string) :
  exists middle, p = first_quarter p ++ middle ++ last_quarter p.
Proof.
  unfold first_quarter, last_quarter.
  set (n := String.length p). set (a := (n / 4)%nat).
  set (b := (n - (n + 3) / 4)%nat).
  assert (Hab : (a <= b)%nat).
  { unfold a, b. apply Nat2Z.inj_le.
    assert (Hq : ((n + 3) / 4 <= n)%nat).
    { destruct n; [reflexivity|]. apply Nat.Div0.div_le_upper_bound. lia. }
    rewrite Nat2Z.inj_sub by exact Hq.
    rewrite !Nat2Z.inj_div, Nat2Z.inj_add.
    change (Z.of_nat 4) with 4; change (Z.of_nat 3) with 3.
    Z.to_euclidean_division_equations. lia. }
  exists (Py.take (b - a) (Py.drop a p)).
  replace (Py.drop b p) with (Py.drop (b - a) (Py.drop a p))
    by (rewrite drop_drop; f_equal; lia).
  now rewrite !take_drop.
Qed.

(** Cutting the middle out of a text of more than 1000 characters makes it
    shorter. *)
Lemma cut_middle_shorter (p : string) :
  1000 < Py.len p -> Py.len (cut_middle p) < Py.len p.
Proof.
  intros H. rewrite cut_middle_quarters. unfold Py.len in *.
  rewrite !length_append, length_first_quarter, length_last_quarter.
  change (String.length " ... ") with 5%nat.
  set (n := String.length p) in *.
  rewrite !Nat2Z.inj_add, !Nat2Z.inj_div, Nat2Z.inj_add.
  change (Z.of_nat 4) with 4; change (Z.of_nat 3) with 3; change (Z.of_nat 5) with 5.
  Z.to_euclidean_division_equations. lia.
Qed.

(** ** Lists *)

Lemma pop_snoc {A} (l : list A) (x : A) : Py.pop (l ++ [x])%list = Some l.
Proof.
  unfold Py.pop. rewrite removelast_last.
  destruct l; reflexivity.
Qed.

Lemma pop_nonempty {A} (l : list A) : l <> [] -> exists l', Py.pop l = Some l'.
Proof. destruct l; [congruence | eexists; reflexivity]. Qed.

Section Claims.

Variable baseprompt : string.
Variable DEBUG : bool.

Local Notation "'sys'" := (system_message baseprompt).
Local Notation "'ok'" := (system_first baseprompt).
Local Notation "s '-[' a ']->' s'" := (step baseprompt DEBUG s a = Some s')
  (at level 70, no associativity).
Local Notation "s '=[' tr ']=>' s'" := (run baseprompt DEBUG s tr = Some s')
  (at level 70, no associativity).

(** ** The system turn stays in front *)

Lemma system_first_snoc (ctx : list message) (m : message) :
  ok ctx -> ok (ctx ++ [m])%list.
Proof. destruct ctx; [discriminate | exact (fun H => H)]. Qed.

Lemma system_first_ladder (p : string) (ctx : list message) :
  ok ctx -> ok (snd (fst (ladder baseprompt p ctx))).
Proof.
  intros H. unfold ladder.
  destruct (1000 <? Py.len p); [exact H|].
  destruct (4 <? length ctx)%nat; [|reflexivity].
  destruct ctx; [discriminate | exact H].
Qed.

Lemma settled_system_first (s : state) : settled baseprompt s -> ok (context s).
Proof.
  unfold settled. destruct (at_ s); auto.
  intros (ctx & m & H & ->). now apply system_first_snoc.
Qed.

Lemma settled_finish (s : state) : ok (context s) -> settled baseprompt (finish DEBUG s).
Proof.
  intros H. unfold settled, finish; simpl.
  destruct DEBUG; [destruct (completion_text s)|]; exact H.
Qed.

Lemma settled_finish_recover (s : state) : settled baseprompt (finish DEBUG (recover baseprompt s)).
Proof. apply settled_finish. reflexivity. Qed.

Lemma settled_request (p : string) (s : state) :
  ok (context s) -> settled baseprompt (request p s).
Proof. intros H. unfold settled; simpl. eauto. Qed.

Lemma settled_step (s s' : state) (a : action) :
  settled baseprompt s -> resets_in_flight s a = false -> s -[ a ]-> s' ->
  settled baseprompt s'.
Proof.
  intros Hs Hcalm Hstep. unfold step in Hstep.
  destruct a as [|p show web| |r|e].
  - (* index *)
    injection Hstep as <-. unfold resets_in_flight in Hcalm.
    unfold settled, index in *; simpl. destruct (at_ s); try reflexivity. discriminate.
  - (* send_message *)
    injection Hstep as <-. unfold send_message.
    destruct (Py.startswith "http" p); [destruct (extract_text_from_blog web)|];
      unfold settled in *; simpl; exact Hs.
  - (* lines 175-183 *)
    destruct (at_ s) eqn:Hat; try discriminate. injection Hstep as <-.
    assert (Hok : ok (context s)) by (unfold settled in Hs; now rewrite Hat in Hs).
    unfold poll. destruct (prompt s =? "")%string.
    + unfold settled. now rewrite Hat.
    + apply settled_request. now destruct (visible s).
  - (* create *)
    destruct (at_ s) eqn:Hat; try discriminate. injection Hstep as <-.
    unfold settled in Hs. rewrite Hat in Hs. destruct Hs as (ctx & m & Hok & Hctx).
    destruct r as [|str_e|]; simpl.
    + unfold ask_returns. destruct (remember s).
      * unfold settled; simpl. rewrite Hctx. now apply system_first_snoc.
      * simpl. rewrite Hctx, pop_snoc. unfold settled; simpl. exact Hok.
    + unfold ask_except. rewrite Hctx, pop_snoc.
      destruct (Py.contains "maximum context length" str_e).
      * pose proof (system_first_ladder p ctx Hok) as Hl.
        destruct (ladder baseprompt p ctx) as [[p' ctx'] notices]. simpl in Hl.
        apply settled_request.
        clear - Hl. revert s. induction notices as [|e es IH]; intros s; simpl.
        -- exact Hl.
        -- apply (IH (emit e (set_context ctx' s))).
      * apply settled_request. exact Hok.
    + apply settled_finish_recover.
  - (* stream *)
    destruct (at_ s) eqn:Hat; try discriminate. injection Hstep as <-.
    unfold settled in Hs. rewrite Hat in Hs.
    destruct e as [[chunk|]| |]; simpl.
    + destruct (completion_text s); [|apply settled_finish_recover].
      unfold settled; simpl. now rewrite Hat.
    + unfold settled. now rewrite Hat.
    + destruct (completion_text s) as [text|]; [|apply settled_finish_recover].
      apply settled_finish. now apply system_first_snoc.
    + apply settled_finish_recover.
Qed.

(** C1, as amended: in every state reached from the initial one by a run in
    which no page load arrives while a call of [create] is in flight, the
    context is non-empty and its first turn is the system turn holding the
    base prompt. *)
Theorem context_starts_with_system (tr : list action) (s : state) :
  initial baseprompt =[ tr ]=> s ->
  calm baseprompt DEBUG (initial baseprompt) tr = true ->
  context s <> [] /\ hd_error (context s) = Some (Message system baseprompt).
Proof.
  assert (Hgen : forall tr s0, settled baseprompt s0 -> s0 =[ tr ]=> s ->
                   calm baseprompt DEBUG s0 tr = true -> settled baseprompt s).
  { clear tr. induction tr as [|a tr IH]; intros s0 H0 Hrun Hcalm; simpl in *.
    - now injection Hrun as <-.
    - destruct (step baseprompt DEBUG s0 a) as [s1|] eqn:Hstep; [|discriminate].
      apply andb_prop in Hcalm as [Hnow Hlater].
      apply negb_true_iff in Hnow.
      apply (IH s1); auto. now apply (settled_step s0 s1 a). }
  intros Hrun Hcalm.
  assert (Hs : ok (context s)).
  { apply settled_system_first. apply (Hgen tr (initial baseprompt)); auto. reflexivity. }
  split; [|exact Hs].
  intros E. unfold system_first in Hs. rewrite E in Hs. discriminate.
Qed.

(** ** Runs *)

Lemma run_app (s : state) (t1 t2 : list action) :
  run baseprompt DEBUG s (t1 ++ t2) =
  match run baseprompt DEBUG s t1 with
  | Some s1 => run baseprompt DEBUG s1 t2
  | None => None
  end.
Proof.
  revert s; induction t1 as [|a t1 IH]; intros s; simpl; [reflexivity|].
  destruct (step baseprompt DEBUG s a); [apply IH | reflexivity].
Qed.

Lemma run_cons (s : state) (a : action) (tr : list action) :
  run baseprompt DEBUG s (a :: tr) =
  match step baseprompt DEBUG s a with
  | Some s' => run baseprompt DEBUG s' tr
  | None => None
  end.
Proof. reflexivity. Qed.

(** Lines 203-206 leave the context alone, send the end marker and empty
    the global [prompt]. *)
Lemma finish_fields (s : state) :
  context (finish DEBUG s) = context s /\
  emitted (finish DEBUG s) = (emitted s ++ [done])%list /\
  prompt (finish DEBUG s) = "" /\
  remember (finish DEBUG s) = remember s /\
  (DEBUG = false \/ completion_text s <> None -> at_ (finish DEBUG s) = Polling) /\
  busy (finish DEBUG s) = false.
Proof.
  unfold finish, busy; simpl.
  destruct DEBUG; [destruct (completion_text s)|]; simpl; repeat split; auto;
    intros [H|H]; congruence.
Qed.

Lemma failed_finish_recover (s : state) :
  failed baseprompt DEBUG s (finish DEBUG (recover baseprompt s)).
Proof.
  destruct (finish_fields (recover baseprompt s)) as (Hc & He & Hp & _ & Ha & _).
  unfold failed. rewrite Hc, He, Hp. simpl. rewrite <- app_assoc.
  repeat split; auto.
Qed.

(** ** Provider errors *)

(** C2, as amended: an [OpenAIError] raised by [create] whose text lacks
    "maximum context length" has its user turn popped and appended again and
    the call is repeated, with nothing broadcast and the state as it was;
    any other exception of [create], and any exception while the stream
    is read, sends the one apology and the end marker, sets the context to
    the single system turn and empties the global [prompt]. *)
Theorem provider_error_paths (s : state) (p : string) :
  (forall str_e ctx,
      at_ s = Requesting p ->
      context s = (ctx ++ [Message user p])%list ->
      Py.contains "maximum context length" str_e = false ->
      s -[ Create (OpenAIError str_e) ]-> s) /\
  (at_ s = Requesting p ->
   exists s', s -[ Create OtherException ]-> s' /\ failed baseprompt DEBUG s s') /\
  (at_ s = Streaming ->
   exists s', s -[ Next StreamRaises ]-> s' /\ failed baseprompt DEBUG s s').
Proof.
  split; [|split].
  - intros str_e ctx Hat Hctx Hno. unfold step. rewrite Hat. simpl.
    unfold ask_except. rewrite Hctx, pop_snoc, Hno. f_equal.
    destruct s; simpl in *; subst; reflexivity.
  - intros Hat. unfold step. rewrite Hat. eexists; split; [reflexivity|].
    apply failed_finish_recover.
  - intros Hat. unfold step. rewrite Hat. eexists; split; [reflexivity|].
    apply failed_finish_recover.
Qed.

(** ** The stream *)

(** Lines 186-194 over a sequence of deltas with no other request handled
    meanwhile. *)
Lemma stream_deltas (ds : list (option string)) (s : state) (text : string) :
  at_ s = Streaming ->
  completion_text s = Some text ->
  s =[ map (fun d => Next (Delta d)) ds ]=>
    State (prompt s) (visible s) (remember s) (context s)
          (emitted s ++ map ai (fragments ds)) Streaming
          (Some (text ++ joined (fragments ds))).
Proof.
  revert s text; induction ds as [|d ds IH]; intros s text Hat Hct.
  - simpl. rewrite app_nil_r, append_empty_r. destruct s; simpl in *; congruence.
  - simpl. unfold step. rewrite Hat. destruct d as [chunk|]; simpl.
    + rewrite Hct.
      rewrite (IH _ (text ++ chunk)) by (simpl; auto).
      simpl. now rewrite <- app_assoc, append_assoc.
    + now apply IH.
Qed.

(** ** Exchanges that are not to be remembered *)

(** C3, as amended: when an exchange submitted with [remember] off goes
    through at the first call of [create] and no other request is handled
    meanwhile, the user turn is appended for the call and dropped as soon
    as [create] returns, before anything of the stream is read, and the
    assistant turn appended at the end stays: the context after the
    exchange is the context before it plus the assistant turn, one turn
    longer, and [remember] is on again. *)
Theorem unremembered_exchange (s : state) (ds : list (option string)) :
  at_ s = Polling ->
  prompt s <> "" ->
  remember s = false ->
  exists s',
    s =[ [Poll] ]=>
      State (prompt s) (visible s) false
            (context s ++ [Message user (prompt s)])
            (emitted s ++ if visible s then [Event (prompt s) "user"] else [])
            (Requesting (prompt s)) (completion_text s) /\
    s =[ [Poll; Create Created] ]=>
      State (prompt s) (visible s) true
            (context s)
            (emitted s ++ if visible s then [Event (prompt s) "user"] else [])
            Streaming (Some "") /\
    s =[ Poll :: Create Created ::
         map (fun d => Next (Delta d)) ds ++ [Next StopIteration] ]=> s' /\
    context s' = (context s ++ [Message assistant (joined (fragments ds))])%list /\
    length (context s') = S (length (context s)) /\
    remember s' = true.
Proof.
  intros Hat Hp Hrem.
  apply String.eqb_neq in Hp.
  set (s1 := poll s).
  assert (H1 : s -[ Poll ]-> s1) by (unfold step; now rewrite Hat).
  assert (E1 : s1 = State (prompt s) (visible s) false
                          (context s ++ [Message user (prompt s)])
                          (emitted s ++
                           if visible s then [Event (prompt s) "user"] else [])
                          (Requesting (prompt s)) (completion_text s)).
  { unfold s1, poll. rewrite Hp. destruct s as [pr vis rem ctx em at0 ct].
    cbn [remember] in Hrem. subst rem.
    destruct vis; cbv [request emit append set_at set_context context prompt
                       visible remember emitted at_ completion_text];
      rewrite ?app_nil_r; reflexivity. }
  assert (Hat1 : at_ s1 = Requesting (prompt s)) by (rewrite E1; reflexivity).
  assert (Hctx1 : context s1 = (context s ++ [Message user (prompt s)])%list)
    by (rewrite E1; reflexivity).
  assert (Hrem1 : remember s1 = false) by (rewrite E1; reflexivity).
  set (s2 := ask_returns baseprompt DEBUG s1).
  assert (H2 : s1 -[ Create Created ]-> s2) by (unfold step; now rewrite Hat1).
  assert (E2 : s2 = State (prompt s) (visible s) true (context s)
                          (emitted s ++
                           if visible s then [Event (prompt s) "user"] else [])
                          Streaming (Some "")).
  { unfold s2, ask_returns. rewrite Hrem1. cbn [set_remember context].
    rewrite Hctx1, pop_snoc. rewrite E1. reflexivity. }
  assert (Hat2 : at_ s2 = Streaming) by (rewrite E2; reflexivity).
  assert (Hct2 : completion_text s2 = Some "") by (rewrite E2; reflexivity).
  assert (Hctx2 : context s2 = context s) by (rewrite E2; reflexivity).
  assert (Hrem2 : remember s2 = true) by (rewrite E2; reflexivity).
  pose proof (stream_deltas ds s2 "" Hat2 Hct2) as H3.
  match type of H3 with _ = Some ?x => set (s3 := x) in * end.
  exists (finish DEBUG (append (Message assistant (joined (fragments ds))) s3)).
  split; [|split; [|split]].
  - rewrite run_cons, H1, <- E1. reflexivity.
  - rewrite run_cons, H1, run_cons, H2, <- E2. reflexivity.
  - rewrite run_cons, H1, run_cons, H2, run_app, H3.
    unfold s3 at 1. reflexivity.
  - destruct (finish_fields
                (append (Message assistant (joined (fragments ds))) s3))
      as (Hc & _ & _ & Hr & _).
    rewrite Hc, Hr. unfold s3; simpl. rewrite Hctx2, Hrem2.
    repeat split. rewrite length_app. simpl. lia.
Qed.

(** ** The overflow ladder *)

(** C4: when [create] raises an [OpenAIError] whose text has "maximum
    context length", the user turn is popped and exactly one of three things
    happens, tried in this order: a prompt of more than 1000 characters
    becomes its first quarter, " ... " and its last quarter, with the
    context as popped; otherwise a context of more than 4 turns loses the
    turns at positions 1 and 2; otherwise the context becomes the single
    system turn and '[Memory Reset]' is broadcast.  In each case the prompt
    is appended again as a user turn and [create] is in flight again;
    nothing else of the state changes. *)
Theorem overflow_ladder (s : state) (p str_e : string) (ctx : list message) :
  at_ s = Requesting p ->
  Py.pop (context s) = Some ctx ->
  Py.contains "maximum context length" str_e = true ->
  (1000 < Py.len p ->
   s -[ Create (OpenAIError str_e) ]->
     State (prompt s) (visible s) (remember s)
           (ctx ++ [Message user (first_quarter p ++ " ... " ++ last_quarter p)])
           (emitted s)
           (Requesting (first_quarter p ++ " ... " ++ last_quarter p))
           (completion_text s)) /\
  (Py.len p <= 1000 -> (4 < length ctx)%nat ->
   exists m0 m1 m2 rest,
     ctx = m0 :: m1 :: m2 :: rest /\
     s -[ Create (OpenAIError str_e) ]->
       State (prompt s) (visible s) (remember s)
             (m0 :: rest ++ [Message user p])
             (emitted s)
             (Requesting p)
             (completion_text s)) /\
  (Py.len p <= 1000 -> (length ctx <= 4)%nat ->
   s -[ Create (OpenAIError str_e) ]->
     State (prompt s) (visible s) (remember s)
           [Message system baseprompt; Message user p]
           (emitted s ++ [Event "[Memory Reset]" "user"])
           (Requesting p)
           (completion_text s)).
Proof.
  intros Hat Hpop Hmax.
  assert (Hstep : step baseprompt DEBUG s (Create (OpenAIError str_e)) =
                  Some (let '(p', ctx', notices) := ladder baseprompt p ctx in
                        request p' (fold_left (fun s e => emit e s) notices
                                      (set_context ctx' s)))).
  { unfold step. rewrite Hat. simpl. unfold ask_except. now rewrite Hpop, Hmax. }
  rewrite Hstep. unfold ladder. split; [|split].
  - intros Hlong. apply Z.ltb_lt in Hlong. rewrite Hlong.
    now rewrite cut_middle_quarters.
  - intros Hshort Hmany. apply Z.ltb_ge in Hshort. rewrite Hshort.
    pose proof Hmany as Hlt. apply Nat.ltb_lt in Hlt. rewrite Hlt.
    destruct ctx as [|m0 [|m1 [|m2 rest]]]; simpl in Hmany; try lia.
    exists m0, m1, m2, rest. split; reflexivity.
  - intros Hshort Hfew. apply Z.ltb_ge in Hshort. rewrite Hshort.
    apply Nat.ltb_ge in Hfew. now rewrite Hfew.
Qed.

Lemma shrink_long (p : string) (ctx : list message) :
  1000 < Py.len p -> shrink baseprompt (p, ctx) = (cut_middle p, ctx).
Proof.
  intros H. apply Z.ltb_lt in H. unfold shrink, ladder; simpl. now rewrite H.
Qed.

Lemma shrink_many (p : string) (ctx : list message) :
  Py.len p <= 1000 -> (4 < length ctx)%nat ->
  shrink baseprompt (p, ctx) = (p, (firstn 1 ctx ++ skipn 3 ctx)%list).
Proof.
  intros H1 H2. apply Z.ltb_ge in H1. apply Nat.ltb_lt in H2.
  unfold shrink, ladder; simpl. now rewrite H1, H2.
Qed.

Lemma shrink_few (p : string) (ctx : list message) :
  Py.len p <= 1000 -> (length ctx <= 4)%nat ->
  shrink baseprompt (p, ctx) = (p, [sys]).
Proof.
  intros H1 H2. apply Z.ltb_ge in H1. apply Nat.ltb_ge in H2.
  unfold shrink, ladder; simpl. now rewrite H1, H2.
Qed.

Lemma length_truncated (ctx : list message) :
  (4 < length ctx)%nat ->
  length (firstn 1 ctx ++ skipn 3 ctx)%list = (length ctx - 2)%nat.
Proof.
  intros H. rewrite length_app, length_firstn, length_skipn. lia.
Qed.

(** With a prompt of at most 1000 characters, a context of [n] turns is
    down to the system turn after at most [n] rounds. *)
Lemma rounds_to_system (p : string) (n : nat) :
  Py.len p <= 1000 ->
  forall ctx, (length ctx <= n)%nat -> (1 <= length ctx)%nat ->
  exists k, (k <= length ctx)%nat /\ Nat.iter k (shrink baseprompt) (p, ctx) = (p, [sys]).
Proof.
  intros Hp. induction n as [|n IH]; intros ctx Hn Hpos; [lia|].
  destruct (Nat.leb_spec (length ctx) 4) as [Hfew|Hmany].
  - exists 1%nat. split; [lia|]. simpl. now apply shrink_few.
  - destruct (IH (firstn 1 ctx ++ skipn 3 ctx)%list) as (k & Hk & Hiter).
    + rewrite length_truncated by lia. lia.
    + rewrite length_truncated by lia. lia.
    + exists (S k). rewrite length_truncated in Hk by lia. split; [lia|].
      rewrite Nat.iter_succ_r, shrink_many by lia. exact Hiter.
Qed.

(** The first rung stops applying after finitely many rounds. *)
Lemma rounds_to_short (ctx : list message) (n : nat) :
  forall p, (String.length p <= n)%nat ->
  exists k p', Nat.iter k (shrink baseprompt) (p, ctx) = (p', ctx) /\ Py.len p' <= 1000.
Proof.
  induction n as [|n IH]; intros p Hn.
  - exists 0%nat, p. split; [reflexivity|]. unfold Py.len. lia.
  - destruct (Z.leb_spec (Py.len p) 1000) as [Hshort|Hlong].
    + exists 0%nat, p. split; [reflexivity | exact Hshort].
    + destruct (IH (cut_middle p)) as (k & p' & Hiter & Hp').
      * pose proof (cut_middle_shorter p Hlong) as H. unfold Py.len in H. lia.
      * exists (S k), p'. split; [|exact Hp'].
        now rewrite Nat.iter_succ_r, shrink_long.
Qed.

(** C5, as amended: a round of the ladder makes a prompt of more than 1000
    characters shorter and leaves the context alone; with a shorter prompt
    it makes a context of more than one turn shorter; from a non-empty
    context it reaches the single system turn within as many rounds as the
    context has turns once the prompt is short, and the prompt is short
    after finitely many rounds.  At the single system turn with a short
    prompt a round changes nothing. *)
Theorem ladder_shrinks (p : string) (ctx : list message) :
  (1000 < Py.len p ->
   Py.len (fst (shrink baseprompt (p, ctx))) < Py.len p /\
   snd (shrink baseprompt (p, ctx)) = ctx) /\
  (Py.len p <= 1000 -> (1 < length ctx)%nat ->
   fst (shrink baseprompt (p, ctx)) = p /\
   (length (snd (shrink baseprompt (p, ctx))) < length ctx)%nat) /\
  (Py.len p <= 1000 -> (1 <= length ctx)%nat ->
   exists k, (k <= length ctx)%nat /\
             Nat.iter k (shrink baseprompt) (p, ctx) = (p, [sys])) /\
  (exists k p', Nat.iter k (shrink baseprompt) (p, ctx) = (p', ctx) /\
                Py.len p' <= 1000) /\
  (Py.len p <= 1000 -> shrink baseprompt (p, [sys]) = (p, [sys])).
Proof.
  repeat split.
  - rewrite shrink_long by assumption. now apply cut_middle_shorter.
  - now rewrite shrink_long.
  - destruct (Nat.leb_spec (length ctx) 4).
    + now rewrite shrink_few. + now rewrite shrink_many by lia.
  - destruct (Nat.leb_spec (length ctx) 4).
    + rewrite shrink_few by assumption. cbn [snd length]. lia.
    + rewrite shrink_many by lia. cbn [snd]. rewrite length_truncated; lia.
  - intros Hp Hpos. now apply (rounds_to_system p (length ctx)).
  - now apply (rounds_to_short ctx (String.length p)).
  - intros Hp. apply shrink_few; [exact Hp | simpl; lia].
Qed.

(** What [picked] records is what [poll] hands to [ask]. *)
Lemma poll_hands_prompt_to_ask (s : state) :
  at_ s = Polling -> prompt s <> "" ->
  picked s Poll = [prompt s] /\
  exists s', s -[ Poll ]-> s' /\ at_ s' = Requesting (prompt s) /\
             context s' = (context s ++ [Message user (prompt s)])%list.
Proof.
  intros Hat Hp. apply String.eqb_neq in Hp.
  unfold picked, step, poll. rewrite Hat, Hp. split; [reflexivity|].
  eexists. split; [reflexivity|]. now destruct (visible s).
Qed.

(** ** Streaming while requests keep arriving *)

Lemma ai_events_snoc (es : list event) (e : event) :
  ai_events (es ++ [e]) =
  (ai_events es ++ if (voice e =? "ai")%string then [e] else [])%list.
Proof. unfold ai_events. rewrite filter_app. reflexivity. Qed.

(** A request handler leaves the thread where it is, sends nothing in the
    assistant's voice and never empties the context. *)
Lemma handler_step (s : state) (a : action) :
  is_move a = false ->
  exists s1,
    s -[ a ]-> s1 /\
    at_ s1 = at_ s /\
    completion_text s1 = completion_text s /\
    ai_events (emitted s1) = ai_events (emitted s) /\
    (context s <> [] -> context s1 <> []).
Proof.
  destruct a as [|p show web| | |]; try discriminate; intros _.
  - exists (index baseprompt s). repeat split; auto. discriminate.
  - exists (fst (send_message p show web s)). split; [reflexivity|].
    unfold send_message.
    destruct (Py.startswith "http" p); [destruct (extract_text_from_blog web)|];
      simpl; repeat split; auto.
    rewrite ai_events_snoc. simpl. apply app_nil_r.
Qed.

Lemma stream_phase (tr : list action) :
  forall (ds : list (option string)) (s : state) (text : string),
  at_ s = Streaming ->
  completion_text s = Some text ->
  moves tr = map (fun d => Next (Delta d)) ds ->
  exists s',
    s =[ tr ]=> s' /\
    at_ s' = Streaming /\
    completion_text s' = Some (text ++ joined (fragments ds)) /\
    ai_events (emitted s') = (ai_events (emitted s) ++ map ai (fragments ds))%list.
Proof.
  induction tr as [|a tr IH]; intros ds s text Hat Hct Hmoves.
  - destruct ds; [|discriminate]. exists s. simpl.
    rewrite append_empty_r, app_nil_r. auto.
  - unfold moves in Hmoves. simpl in Hmoves.
    destruct (is_move a) eqn:Ha.
    + destruct ds as [|d ds]; [discriminate|]. simpl in Hmoves.
      injection Hmoves as -> Hmoves.
      rewrite run_cons. unfold step. rewrite Hat. destruct d as [chunk|]; simpl.
      * rewrite Hct.
        destruct (IH ds (emit (Event chunk "ai")
                           (set_completion_text (Some (text ++ chunk)) s))
                    (text ++ chunk) Hat eq_refl Hmoves)
          as (s' & Hrun & Hat' & Hct' & Hai).
        exists s'. repeat split; auto.
        -- now rewrite Hct', append_assoc.
        -- rewrite Hai. simpl emitted. rewrite ai_events_snoc. simpl.
           now rewrite <- app_assoc.
      * now apply IH.
    + destruct (handler_step s a Ha) as (s1 & Hstep & Hat1 & Hct1 & Hai1 & _).
      destruct (IH ds s1 text ltac:(congruence) ltac:(congruence) Hmoves)
        as (s' & Hrun & Hat' & Hct' & Hai').
      exists s'. rewrite run_cons, Hstep. repeat split; auto. congruence.
Qed.

(** An [OpenAIError] answered with a non-empty context leaves [create] in
    flight on a non-empty context and sends nothing in the assistant's
    voice. *)
Lemma retry_step (s : state) (p str_e : string) :
  context s <> [] ->
  exists p',
    at_ (ask_except baseprompt DEBUG str_e p s) = Requesting p' /\
    context (ask_except baseprompt DEBUG str_e p s) <> [] /\
    ai_events (emitted (ask_except baseprompt DEBUG str_e p s))
    = ai_events (emitted s).
Proof.
  intros Hctx. unfold ask_except.
  destruct (pop_nonempty (context s) Hctx) as (ctx & ->).
  destruct (Py.contains _ str_e).
  - unfold ladder. destruct (1000 <? Py.len p); [|destruct (4 <? length ctx)%nat];
      eexists; simpl; (split; [reflexivity|]); (split; [|auto]);
      try (intros E; now apply app_eq_nil in E as [_ E]); try discriminate.
    rewrite ai_events_snoc. simpl. apply app_nil_r.
  - exists p. simpl. repeat split.
    intros E. now apply app_eq_nil in E as [_ E].
Qed.

Lemma request_phase (tr : list action) :
  forall (errs : list string) (ds : list (option string)) (s : state) (p : string),
  at_ s = Requesting p ->
  context s <> [] ->
  moves tr = (map (fun e => Create (OpenAIError e)) errs ++
              Create Created :: map (fun d => Next (Delta d)) ds)%list ->
  exists s',
    s =[ tr ]=> s' /\
    at_ s' = Streaming /\
    completion_text s' = Some (joined (fragments ds)) /\
    ai_events (emitted s') = (ai_events (emitted s) ++ map ai (fragments ds))%list.
Proof.
  induction tr as [|a tr IH]; intros errs ds s p Hat Hctx Hmoves.
  { destruct errs; discriminate. }
  unfold moves in Hmoves. simpl in Hmoves.
  destruct (is_move a) eqn:Ha.
  - destruct errs as [|str_e errs]; simpl in Hmoves; injection Hmoves as -> Hmoves;
      rewrite run_cons; unfold step; rewrite Hat; simpl.
    + (* the call is accepted *)
      assert (Hret : exists s1, ask_returns baseprompt DEBUG s = s1 /\
                       at_ s1 = Streaming /\ completion_text s1 = Some "" /\
                       emitted s1 = emitted s).
      { unfold ask_returns. destruct (remember s); [eexists; repeat split|].
        simpl. destruct (pop_nonempty (context s) Hctx) as (ctx & ->).
        eexists; repeat split. }
      destruct Hret as (s1 & -> & Hat1 & Hct1 & Hem1).
      destruct (stream_phase tr ds s1 "" Hat1 Hct1 Hmoves) as (s' & Hrun & ? & ? & Hai).
      exists s'. repeat split; auto. now rewrite Hai, Hem1.
    + (* the call is repeated *)
      destruct (retry_step s p str_e Hctx) as (p' & Hat1 & Hctx1 & Hai1).
      destruct (IH errs ds _ p' Hat1 Hctx1 Hmoves) as (s' & Hrun & Hat' & Hct' & Hai').
      exists s'. repeat split; auto. congruence.
  - destruct (handler_step s a Ha) as (s1 & Hstep & Hat1 & _ & Hai1 & Hctx1).
    destruct (IH errs ds s1 p ltac:(congruence) (Hctx1 Hctx) Hmoves)
      as (s' & Hrun & Hat' & Hct' & Hai').
    exists s'. rewrite run_cons, Hstep. repeat split; auto. congruence.
Qed.

(** C6: in an exchange whose stream ends normally, after any number of
    repeated calls of [create] and whatever requests are handled meanwhile,
    the events broadcast in the assistant's voice are one per delta that
    has a content, in the order of the stream, and the assistant turn
    appended at the end holds the concatenation of their texts. *)
Theorem fragments_in_order
  (s : state) (tr : list action) (errs : list string) (ds : list (option string)) :
  at_ s = Polling ->
  prompt s <> "" ->
  moves tr = (map (fun e => Create (OpenAIError e)) errs ++
              Create Created :: map (fun d => Next (Delta d)) ds)%list ->
  exists s' sent ctx,
    s =[ Poll :: tr ++ [Next StopIteration] ]=> s' /\
    sent = map ai (fragments ds) /\
    ai_events (emitted s') = (ai_events (emitted s) ++ sent)%list /\
    context s' = (ctx ++ [Message assistant (joined (map update sent))])%list.
Proof.
  intros Hat Hp Hmoves.
  destruct (poll_hands_prompt_to_ask s Hat Hp) as (_ & s0 & Hpoll & Hat0 & Hctx0).
  assert (Hai0 : ai_events (emitted s0) = ai_events (emitted s)).
  { unfold step in Hpoll. rewrite Hat in Hpoll. injection Hpoll as <-.
    apply String.eqb_neq in Hp. unfold poll. rewrite Hp.
    destruct (visible s); simpl; [|reflexivity].
    rewrite ai_events_snoc. simpl. apply app_nil_r. }
  assert (Hne : context s0 <> []).
  { rewrite Hctx0. intros E. now apply app_eq_nil in E as [_ E]. }
  destruct (request_phase tr errs ds s0 _ Hat0 Hne Hmoves)
    as (s1 & Hrun & Hat1 & Hct1 & Hai).
  exists (finish DEBUG (append (Message assistant (joined (fragments ds))) s1)),
         (map ai (fragments ds)), (context s1).
  destruct (finish_fields (append (Message assistant (joined (fragments ds))) s1))
    as (Hc & He & _).
  split; [|split; [reflexivity|split]].
  - rewrite run_cons, Hpoll, run_app, Hrun, run_cons. unfold step. rewrite Hat1.
    simpl. now rewrite Hct1.
  - rewrite He. simpl emitted. rewrite ai_events_snoc. simpl.
    now rewrite app_nil_r, Hai, Hai0.
  - rewrite Hc. simpl. rewrite map_map. simpl. now rewrite map_id.
Qed.

(** ** The single slot *)

Lemma emits_fields (es : list event) (s : state) :
  let s' := fold_left (fun s e => emit e s) es s in
  prompt s' = prompt s /\ context s' = context s /\ at_ s' = at_ s /\
  emitted s' = (emitted s ++ es)%list.
Proof.
  revert s; induction es as [|e es IH]; intros s; simpl.
  - now rewrite app_nil_r.
  - destruct (IH (emit e s)) as (Hp & Hc & Ha & He).
    rewrite Hp, Hc, Ha, He. simpl. now rewrite <- app_assoc.
Qed.

Lemma send_message_prompt (p b : string) (show : bool) (web : fetched) (s : state) :
  submitted p web = Some b ->
  prompt (fst (send_message p show web s)) = b.
Proof.
  unfold submitted, send_message.
  destruct (Py.startswith "http" p); [destruct (extract_text_from_blog web)|];
    simpl; congruence.
Qed.

(** Nothing but a submission puts a text into the global [prompt]. *)
Lemma prompt_kept_or_cleared (s s' : state) (a : action) :
  is_submit a = false -> s -[ a ]-> s' -> prompt s' = prompt s \/ prompt s' = "".
Proof.
  intros Ha Hstep. unfold step in Hstep.
  assert (Hfin : forall x, prompt (finish DEBUG x) = "")
    by (intros x; apply finish_fields).
  destruct a as [|p show web| |r|e]; try discriminate.
  - injection Hstep as <-. now left.
  - destruct (at_ s); try discriminate. injection Hstep as <-. left.
    unfold poll. destruct (prompt s =? "")%string; [reflexivity|].
    now destruct (visible s).
  - destruct (at_ s); try discriminate. injection Hstep as <-.
    destruct r as [|str_e|]; simpl; auto.
    + unfold ask_returns. destruct (remember s); simpl; auto.
      destruct (Py.pop (context s)); simpl; auto.
    + unfold ask_except. destruct (Py.pop (context s)) as [ctx|]; auto.
      destruct (Py.contains _ str_e); simpl; auto.
      destruct (ladder baseprompt p ctx) as [[p' ctx'] notices]. simpl. left.
      apply (emits_fields notices (set_context ctx' s)).
  - destruct (at_ s); try discriminate. injection Hstep as <-.
    destruct e as [[chunk|]| |]; simpl; auto;
      destruct (completion_text s); simpl; auto.
Qed.

Lemma picks_of_slot (b : string) (rest : list action) :
  forallb (fun a => negb (is_submit a)) rest = true ->
  forall s, prompt s = b \/ prompt s = "" ->
  Forall (fun x => x = b) (picks baseprompt DEBUG s rest).
Proof.
  induction rest as [|a rest IH]; intros Hrest s Hs; simpl; [constructor|].
  simpl in Hrest. apply andb_prop in Hrest as [Ha Hrest].
  apply negb_true_iff in Ha.
  apply Forall_app. split.
  - unfold picked. destruct a; try constructor.
    destruct (at_ s); try constructor.
    destruct (String.eqb_spec (prompt s) ""); [constructor|].
    constructor; [|constructor]. destruct Hs; congruence.
  - destruct (step baseprompt DEBUG s a) as [s1|] eqn:Hstep; [|constructor].
    apply IH; [exact Hrest|].
    destruct (prompt_kept_or_cleared s s1 a Ha Hstep) as [E|E]; rewrite E; auto.
Qed.

(** X16: when a submission is followed by a second one that returns, with
    no move of the thread in between, the global [prompt] holds the text of
    the second, and until the next submission every text the thread takes
    out of [prompt] is that text: the first is never handed to [ask]. *)
Theorem last_submission_wins
  (s : state) (pA pB : string) (showA showB : bool) (webA webB : fetched)
  (b : string) (rest : list action) :
  submitted pB webB = Some b ->
  forallb (fun a => negb (is_submit a)) rest = true ->
  (exists s2,
     s =[ [Submit pA showA webA; Submit pB showB webB] ]=> s2 /\ prompt s2 = b) /\
  Forall (fun x => x = b)
         (picks baseprompt DEBUG s
                (Submit pA showA webA :: Submit pB showB webB :: rest)).
Proof.
  intros Hb Hrest. split.
  - eexists. split; [reflexivity|]. now apply send_message_prompt.
  - simpl. apply picks_of_slot; [exact Hrest|]. left.
    now apply send_message_prompt.
Qed.

(** ** The end marker *)

Lemma dones_snoc (es : list event) (e : event) :
  dones (es ++ [e]) =
  (dones es + if (voice e =? "done")%string then 1 else 0)%nat.
Proof.
  unfold dones. rewrite filter_app, length_app. simpl.
  now destruct (voice e =? "done")%string.
Qed.

Lemma ends_by_commit (s : state) (m : message) :
  ended DEBUG s (finish DEBUG (append m s)).
Proof.
  destruct (finish_fields (append m s)) as (_ & He & Hp & _ & Ha & Hb).
  unfold ended. rewrite He, Hp. repeat split; auto.
  exists []. auto.
Qed.

Lemma ends_by_apology (s : state) :
  ended DEBUG s (finish DEBUG (recover baseprompt s)).
Proof.
  destruct (finish_fields (recover baseprompt s)) as (_ & He & Hp & _ & Ha & Hb).
  unfold ended. rewrite He, Hp. repeat split; auto.
  exists [apology]. simpl. rewrite <- app_assoc. auto.
Qed.

(** The transition that takes the thread out of an exchange broadcasts the
    end marker exactly once and as its last event, after the apology if
    there is one, and empties the global [prompt]; no other transition
    broadcasts an end marker. *)
Theorem done_marks_every_end (s s' : state) (a : action) :
  s -[ a ]-> s' ->
  if busy s && negb (busy s') then ended DEBUG s s'
  else dones (emitted s') = dones (emitted s).
Proof.
  intros Hstep. unfold step in Hstep.
  assert (Hend : forall x : state,
             busy s = true -> ended DEBUG s x ->
             if busy s && negb (busy x) then ended DEBUG s x
             else dones (emitted x) = dones (emitted s)).
  { intros x -> H. destruct H as (Hb & H). rewrite Hb. simpl. now split. }
  assert (Hon : forall x : state,
             busy x = true -> dones (emitted x) = dones (emitted s) ->
             if busy s && negb (busy x) then ended DEBUG s x
             else dones (emitted x) = dones (emitted s)).
  { intros x -> H. now rewrite andb_false_r. }
  destruct a as [|p show web| |r|e].
  - (* index *)
    injection Hstep as <-. unfold busy, index; simpl.
    destruct (at_ s); reflexivity.
  - (* send_message *)
    injection Hstep as <-. unfold send_message.
    destruct (Py.startswith "http" p); [destruct (extract_text_from_blog web)|];
      unfold busy; simpl; try rewrite dones_snoc; simpl;
      destruct (at_ s); simpl; lia.
  - (* lines 175-183 *)
    destruct (at_ s) eqn:Hat; try discriminate. injection Hstep as <-.
    unfold busy at 1. rewrite Hat. simpl.
    unfold poll. destruct (prompt s =? "")%string; [reflexivity|].
    destruct (visible s); simpl; [|reflexivity].
    rewrite dones_snoc. simpl. lia.
  - (* create *)
    destruct (at_ s) eqn:Hat; try discriminate. injection Hstep as <-.
    assert (Hb : busy s = true) by (unfold busy; now rewrite Hat).
    destruct r as [|str_e|]; simpl.
    + unfold ask_returns. destruct (remember s); [now apply Hon|].
      simpl. destruct (Py.pop (context s)); [now apply Hon|].
      apply Hend; auto; apply (ends_by_apology (set_remember true s)).
    + unfold ask_except. destruct (Py.pop (context s)) as [ctx|].
      * destruct (Py.contains _ str_e); [|now apply Hon].
        unfold ladder. destruct (1000 <? Py.len p); [now apply Hon|].
        destruct (4 <? length ctx)%nat; [now apply Hon|].
        apply Hon; [reflexivity|]. simpl. rewrite dones_snoc. simpl. lia.
      * apply Hend; auto; apply ends_by_apology.
    + apply Hend; auto; apply ends_by_apology.
  - (* stream *)
    destruct (at_ s) eqn:Hat; try discriminate. injection Hstep as <-.
    assert (Hb : busy s = true) by (unfold busy; now rewrite Hat).
    destruct e as [[chunk|]| |]; simpl.
    + destruct (completion_text s).
      * apply Hon; [unfold busy; simpl; now rewrite Hat|].
        simpl. rewrite dones_snoc. simpl. lia.
      * apply Hend; auto; apply ends_by_apology.
    + now apply Hon.
    + destruct (completion_text s).
      * apply Hend; auto; apply ends_by_commit.
      * apply Hend; auto; apply ends_by_apology.
    + apply Hend; auto; apply ends_by_apology.
Qed.




(** ** The thread and the debug flag *)

(** With [DEBUG] off no transition ends the thread: line 206 is the only
    place where an exception can leave [send_update]. *)
Lemma thread_survives_without_debug (s s' : state) (a : action) :
  DEBUG = false -> s -[ a ]-> s' -> at_ s <> Dead -> at_ s' <> Dead.
Proof.
  intros Hd Hstep Hlive. unfold step in Hstep.
  assert (Hfin : forall x, at_ (finish DEBUG x) <> Dead).
  { intros x. destruct (finish_fields x) as (_ & _ & _ & _ & Ha & _).
    rewrite Ha by auto. discriminate. }
  destruct a as [|p show web| |r|e].
  - injection Hstep as <-. exact Hlive.
  - injection Hstep as <-. unfold send_message.
    destruct (Py.startswith "http" p); [destruct (extract_text_from_blog web)|];
      exact Hlive.
  - destruct (at_ s) eqn:Hat; try discriminate. injection Hstep as <-.
    unfold poll. destruct (prompt s =? "")%string; [now rewrite Hat|].
    discriminate.
  - destruct (at_ s) eqn:Hat; try discriminate. injection Hstep as <-.
    destruct r as [|str_e|]; simpl; auto.
    + unfold ask_returns. destruct (remember s); [discriminate|].
      simpl. destruct (Py.pop (context s)); [discriminate | apply Hfin].
    + unfold ask_except. destruct (Py.pop (context s)) as [ctx|]; [|apply Hfin].
      destruct (Py.contains _ str_e); [|discriminate].
      destruct (ladder baseprompt p ctx) as [[p' ctx'] notices]. discriminate.
  - destruct (at_ s) eqn:Hat; try discriminate. injection Hstep as <-.
    destruct e as [[chunk|]| |]; simpl; auto.
    + destruct (completion_text s); [simpl; now rewrite Hat | apply Hfin].
    + now rewrite Hat.
    + destruct (completion_text s); apply Hfin.
Qed.


End Claims.

(** * Examples *)

(** ** C1 *)

(** C1 fails as stated: a page load while [create] is in flight, followed
    by an [OpenAIError], makes line 89 pop the system turn; the exchange
    then completes on a context whose first turn is the user's. *)
Lemma page_load_in_flight_drops_system_turn :
  run "base" false (initial "base")
      [Submit "hi" true FetchRaises; Poll; PageLoad;
       Create (OpenAIError "Rate limit reached");
       Create Created; Next (Delta (Some "Hello")); Next StopIteration]
  = Some (State "" true true
                [Message user "hi"; Message assistant "Hello"]
                [Event "hi" "user"; Event "Hello" "ai"; Event "" "done"]
                Polling (Some "Hello")) /\
  ~ (forall s, reachable "base" false s ->
               context s <> [] /\
               hd_error (context s) = Some (Message system "base")).
Proof.
  split; [reflexivity|].
  intros H.
  destruct (H (State "" true true
                [Message user "hi"; Message assistant "Hello"]
                [Event "hi" "user"; Event "Hello" "ai"; Event "" "done"]
                Polling (Some "Hello"))) as [_ Hhd].
  - exists [Submit "hi" true FetchRaises; Poll; PageLoad;
            Create (OpenAIError "Rate limit reached");
            Create Created; Next (Delta (Some "Hello")); Next StopIteration].
    reflexivity.
  - discriminate Hhd.
Qed.

(** A run with a page load while the stream is read, not while [create]
    is in flight. *)
Lemma context_starts_with_system_witness :
  run "base" false (initial "base")
      [Submit "hi" true FetchRaises; Poll; Create Created; PageLoad;
       Next (Delta (Some "Hello")); Next StopIteration]
  = Some (State "" true true
                [Message system "base"; Message assistant "Hello"]
                [Event "hi" "user"; Event "Hello" "ai"; Event "" "done"]
                Polling (Some "Hello")) /\
  calm "base" false (initial "base")
      [Submit "hi" true FetchRaises; Poll; Create Created; PageLoad;
       Next (Delta (Some "Hello")); Next StopIteration] = true /\
  [Message system "base"; Message assistant "Hello"] <> [] /\
  hd_error [Message system "base"; Message assistant "Hello"]
  = Some (Message system "base").
Proof.
  split; [reflexivity|]. split; [reflexivity|].
  apply (context_starts_with_system "base" false
           [Submit "hi" true FetchRaises; Poll; Create Created; PageLoad;
            Next (Delta (Some "Hello")); Next StopIteration]
           (State "" true true
                [Message system "base"; Message assistant "Hello"]
                [Event "hi" "user"; Event "Hello" "ai"; Event "" "done"]
                Polling (Some "Hello")));
    reflexivity.
Defined.

(** ** C2 *)

(** C2 fails as stated: an [OpenAIError] about a rate limit, raised by
    [create] for the prompt "hi", leaves the state as it was, with the
    call of [create] in flight again: nothing is broadcast and the context
    is not reset. *)
Lemma rate_limit_is_retried :
  run "base" false (initial "base") [Submit "hi" true FetchRaises; Poll]
  = Some asking_hi /\
  Py.contains "maximum context length" rate_limit_text = false /\
  step "base" false asking_hi (Create (OpenAIError rate_limit_text))
  = Some asking_hi /\
  at_ asking_hi = Requesting "hi" /\
  ~ failed "base" false asking_hi asking_hi.
Proof.
  repeat split; try reflexivity.
  intros (Hemitted & _). discriminate Hemitted.
Qed.

(** The three paths at "hi": a rate limit at [create], another exception at
    [create], an exception in the stream. *)
Lemma provider_error_paths_witness :
  (at_ asking_hi = Requesting "hi" /\
   context asking_hi = ([Message system "base"] ++ [Message user "hi"])%list /\
   Py.contains "maximum context length" rate_limit_text = false /\
   step "base" false asking_hi (Create (OpenAIError rate_limit_text))
   = Some asking_hi) /\
  (exists s', step "base" false asking_hi (Create OtherException) = Some s' /\
              failed "base" false asking_hi s') /\
  (at_ streaming_hi = Streaming /\
   exists s', step "base" false streaming_hi (Next StreamRaises) = Some s' /\
              failed "base" false streaming_hi s').
Proof.
  destruct (provider_error_paths "base" false asking_hi "hi") as (H1 & H2 & _).
  destruct (provider_error_paths "base" false streaming_hi "hi") as (_ & _ & H3).
  split; [|split].
  - split; [reflexivity|]. split; [reflexivity|]. split; [reflexivity|].
    apply (H1 rate_limit_text [Message system "base"]); reflexivity.
  - apply H2. reflexivity.
  - split; [reflexivity|]. apply H3. reflexivity.
Defined.

(** ** C3 *)

(** C3 fails as stated: after a blog is submitted ([remember] off) and its
    summary streamed, the context has gone from one turn to two; what was
    dropped is the user turn, before the stream was read, and the summary
    stays. *)
Lemma summary_stays_in_context :
  run "base" false (initial "base")
      [Submit "http://blog.example/post" true (Response 200 ["Once upon a time"])]
  = Some blog_submitted /\
  remember blog_submitted = false /\
  run "base" false blog_submitted [Poll; Create Created]
  = Some (State (prompt blog_submitted) false true
                [Message system "base"]
                (emitted blog_submitted) Streaming (Some "")) /\
  exists s',
    run "base" false blog_submitted
        [Poll; Create Created; Next (Delta (Some "A tale.")); Next StopIteration]
    = Some s' /\
    context s' = [Message system "base"; Message assistant "A tale."] /\
    length (context s') <> length (context blog_submitted).
Proof.
  split; [reflexivity|]. split; [reflexivity|]. split; [reflexivity|].
  eexists. split; [reflexivity|]. split; [reflexivity|].
  simpl. discriminate.
Qed.

(** The summary of a blog, streamed in two fragments. *)
Lemma unremembered_exchange_witness :
  at_ blog_submitted = Polling /\
  prompt blog_submitted <> "" /\
  remember blog_submitted = false /\
  exists s',
    run "base" false blog_submitted [Poll]
    = Some (State (prompt blog_submitted) (visible blog_submitted) false
                  (context blog_submitted ++
                   [Message user (prompt blog_submitted)])
                  (emitted blog_submitted ++
                   if visible blog_submitted
                   then [Event (prompt blog_submitted) "user"] else [])
                  (Requesting (prompt blog_submitted))
                  (completion_text blog_submitted)) /\
    run "base" false blog_submitted [Poll; Create Created]
    = Some (State (prompt blog_submitted) (visible blog_submitted) true
                  (context blog_submitted)
                  (emitted blog_submitted ++
                   if visible blog_submitted
                   then [Event (prompt blog_submitted) "user"] else [])
                  Streaming (Some "")) /\
    run "base" false blog_submitted
        (Poll :: Create Created ::
         map (fun d => Next (Delta d)) [Some "A "; None; Some "tale."]
         ++ [Next StopIteration]) = Some s' /\
    context s' =
      (context blog_submitted ++
       [Message assistant (joined (fragments [Some "A "; None; Some "tale."]))])%list /\
    length (context s') = S (length (context blog_submitted)) /\
    remember s' = true.
Proof.
  assert (H : prompt blog_submitted <> "") by (vm_compute; discriminate).
  split; [reflexivity|]. split; [exact H|]. split; [reflexivity|].
  apply (unremembered_exchange "base" false blog_submitted
           [Some "A "; None; Some "tale."]); [reflexivity | exact H | reflexivity].
Defined.

(** ** C4 *)

(** One overflow on each rung: a prompt of 1004 characters, a context of
    six turns, a context of one turn. *)
Lemma overflow_ladder_witness :
  (1000 < Py.len long_prompt /\
   step "base" false (asking long_prompt [Message system "base"])
        (Create (OpenAIError overflow_text))
   = Some (State long_prompt true true
                 ([Message system "base"] ++
                  [Message user
                     (first_quarter long_prompt ++ " ... " ++ last_quarter long_prompt)])
                 []
                 (Requesting
                    (first_quarter long_prompt ++ " ... " ++ last_quarter long_prompt))
                 None)) /\
  ((4 < length six_turns)%nat /\
   exists m0 m1 m2 rest,
     six_turns = m0 :: m1 :: m2 :: rest /\
     step "base" false (asking "hi" six_turns) (Create (OpenAIError overflow_text))
     = Some (State "hi" true true (m0 :: rest ++ [Message user "hi"]) []
                   (Requesting "hi") None)) /\
  ((length [Message system "base"] <= 4)%nat /\
   step "base" false (asking "hi" [Message system "base"])
        (Create (OpenAIError overflow_text))
   = Some (State "hi" true true
                 [Message system "base"; Message user "hi"]
                 ([] ++ [Event "[Memory Reset]" "user"])
                 (Requesting "hi") None)).
Proof.
  split; [|split].
  - split; [reflexivity|].
    apply (overflow_ladder "base" false
             (asking long_prompt [Message system "base"]) long_prompt overflow_text
             [Message system "base"]); reflexivity.
  - split; [simpl; lia|].
    apply (overflow_ladder "base" false (asking "hi" six_turns) "hi" overflow_text
             six_turns); try reflexivity; [vm_compute; discriminate | simpl; lia].
  - split; [simpl; lia|].
    apply (overflow_ladder "base" false (asking "hi" [Message system "base"]) "hi"
             overflow_text [Message system "base"]);
      try reflexivity; [vm_compute; discriminate | simpl; lia].
Defined.

(** ** C5 *)

(** C5 fails as stated: on the prompt "hi" and the context holding only the
    system turn, a round of the ladder returns the same prompt and the same
    context, so neither gets smaller; the loop then calls [create] again
    with the request it had. *)
Lemma minimal_context_is_not_shrunk :
  shrink "base" ("hi", [Message system "base"]) = ("hi", [Message system "base"]) /\
  step "base" false asking_hi (Create (OpenAIError overflow_text))
  = Some (emit memory_reset asking_hi) /\
  ~ (forall p ctx,
       Py.len (fst (shrink "base" (p, ctx))) < Py.len p \/
       (length (snd (shrink "base" (p, ctx))) < length ctx)%nat).
Proof.
  split; [reflexivity|]. split; [reflexivity|].
  intros H. destruct (H "hi" [Message system "base"]) as [Hp|Hc].
  - vm_compute in Hp. discriminate Hp.
  - vm_compute in Hc. lia.
Qed.

(** The same three situations, round by round. *)
Lemma ladder_shrinks_witness :
  (1000 < Py.len long_prompt /\
   Py.len (fst (shrink "base" (long_prompt, six_turns))) < Py.len long_prompt /\
   snd (shrink "base" (long_prompt, six_turns)) = six_turns) /\
  (Py.len "hi" <= 1000 /\ (1 < length six_turns)%nat /\
   fst (shrink "base" ("hi", six_turns)) = "hi" /\
   (length (snd (shrink "base" ("hi", six_turns))) < length six_turns)%nat) /\
  (exists k, (k <= length six_turns)%nat /\
             Nat.iter k (shrink "base") ("hi", six_turns)
             = ("hi", [Message system "base"])) /\
  (exists k p', Nat.iter k (shrink "base") (long_prompt, six_turns) = (p', six_turns) /\
                Py.len p' <= 1000) /\
  shrink "base" ("hi", [Message system "base"]) = ("hi", [Message system "base"]).
Proof.
  assert (Hlong : 1000 < Py.len long_prompt) by reflexivity.
  assert (Hshort : Py.len "hi" <= 1000) by (vm_compute; discriminate).
  assert (Hmany : (1 < length six_turns)%nat) by (simpl; lia).
  assert (Hsome : (1 <= length six_turns)%nat) by (simpl; lia).
  destruct (ladder_shrinks "base" long_prompt six_turns) as (H1 & _ & _ & H4 & _).
  destruct (ladder_shrinks "base" "hi" six_turns) as (_ & H2 & H3 & _ & _).
  destruct (ladder_shrinks "base" "hi" [Message system "base"]) as (_ & _ & _ & _ & H5).
  split; [|split; [|split; [|split]]].
  - split; [exact Hlong | exact (H1 Hlong)].
  - split; [exact Hshort|]. split; [exact Hmany | exact (H2 Hshort Hmany)].
  - exact (H3 Hshort Hsome).
  - exact H4.
  - exact (H5 Hshort).
Defined.

(** ** C6 *)

(** "hi" is answered by "Hel", "lo" after one repeated call, while a page
    is loaded and another text submitted. *)
Lemma fragments_in_order_witness :
  at_ (initial "base") = Polling /\
  exists s0,
    run "base" false (initial "base") [Submit "hi" true FetchRaises] = Some s0 /\
    prompt s0 <> "" /\
    moves [Create (OpenAIError rate_limit_text); Create Created;
           Next (Delta (Some "Hel")); PageLoad; Next (Delta None);
           Submit "more" true FetchRaises; Next (Delta (Some "lo"))]
    = (map (fun e => Create (OpenAIError e)) [rate_limit_text] ++
       Create Created :: map (fun d => Next (Delta d)) [Some "Hel"; None; Some "lo"])%list /\
    exists s' sent ctx,
      run "base" false s0
          (Poll ::
           [Create (OpenAIError rate_limit_text); Create Created;
            Next (Delta (Some "Hel")); PageLoad; Next (Delta None);
            Submit "more" true FetchRaises; Next (Delta (Some "lo"))]
           ++ [Next StopIteration]) = Some s' /\
      sent = map ai (fragments [Some "Hel"; None; Some "lo"]) /\
      ai_events (emitted s') = (ai_events (emitted s0) ++ sent)%list /\
      context s' = (ctx ++ [Message assistant (joined (map update sent))])%list.
Proof.
  split; [reflexivity|].
  exists (State "hi" true true [Message system "base"] [] Polling None).
  assert (H : prompt (State "hi" true true [Message system "base"] [] Polling None)
              <> "") by (simpl; discriminate).
  split; [reflexivity|]. split; [exact H|]. split; [reflexivity|].
  apply (fragments_in_order "base" false
           (State "hi" true true [Message system "base"] [] Polling None)
           [Create (OpenAIError rate_limit_text); Create Created;
            Next (Delta (Some "Hel")); PageLoad; Next (Delta None);
            Submit "more" true FetchRaises; Next (Delta (Some "lo"))]
           [rate_limit_text] [Some "Hel"; None; Some "lo"]);
    [reflexivity | exact H | reflexivity].
Defined.

(** ** C7 *)

(** C7, at the failing input: "first" is submitted, then a text starting
    with "http" whose fetch fails, before the thread has looked.  Line 158
    raises before line 160 stores anything, so the global [prompt] still
    holds "first", now with [visible] and [remember] off, and the thread
    hands "first" to [ask]. *)
Theorem failed_fetch_leaves_older_prompt :
  run "base" false (initial "base")
      [Submit "first" true FetchRaises;
       Submit "http://blog.example/post" true FetchRaises]
  = Some (State "first" false false [Message system "base"] [] Polling None) /\
  snd (send_message "http://blog.example/post" true FetchRaises
                    (State "first" true true [Message system "base"] [] Polling None))
  = Raised /\
  run "base" false (initial "base")
      [Submit "first" true FetchRaises;
       Submit "http://blog.example/post" true FetchRaises; Poll]
  = Some (State "first" false false
                [Message system "base"; Message user "first"] []
                (Requesting "first") None) /\
  picks "base" false (initial "base")
        [Submit "first" true FetchRaises;
         Submit "http://blog.example/post" true FetchRaises; Poll]
  = ["first"] /\
  picks "base" false (initial "base")
        [Submit "first" true FetchRaises;
         Submit "http://blog.example/post" true (Response 404 []); Poll]
  = ["first"].
Proof. split; [|split; [|split; [|split]]]; reflexivity. Qed.

(** "first" is overwritten by "second" before the thread looks. *)
Lemma last_submission_wins_witness :
  submitted "second" FetchRaises = Some "second" /\
  forallb (fun a => negb (is_submit a))
          [Poll; Create Created; Next (Delta (Some "ok")); Next StopIteration; Poll]
  = true /\
  (exists s2,
     run "base" false (initial "base")
         [Submit "first" true FetchRaises; Submit "second" true FetchRaises]
     = Some s2 /\ prompt s2 = "second") /\
  Forall (fun x => x = "second")
         (picks "base" false (initial "base")
                (Submit "first" true FetchRaises :: Submit "second" true FetchRaises ::
                 [Poll; Create Created; Next (Delta (Some "ok")); Next StopIteration;
                  Poll])).
Proof.
  split; [reflexivity|]. split; [reflexivity|].
  apply (last_submission_wins "base" false (initial "base") "first" "second"
           true true FetchRaises FetchRaises "second"
           [Poll; Create Created; Next (Delta (Some "ok")); Next StopIteration; Poll]);
    reflexivity.
Defined.

(** ** C8 *)

(** C8, at the failing input: with [DEBUG] on, when the first call of
    [create] of the first exchange raises an exception that is not an
    [OpenAIError], the [except:] block runs, the end marker is sent and the
    global [prompt] is emptied, and then line 206 reads the unbound
    [completion_text]: the thread ends.  With [DEBUG] off the same run
    leaves the thread at the top of its loop. *)
Theorem debug_print_ends_thread :
  run "base" true (initial "base")
      [Submit "hi" true FetchRaises; Poll; Create OtherException]
  = Some (State "" true true [Message system "base"]
                [Event "hi" "user";
                 Event "An error occurred - unable to complete." "ai";
                 Event "" "done"]
                Dead None) /\
  run "base" true (initial "base")
      [Submit "hi" true FetchRaises; Poll; Create OtherException; Poll]
  = None /\
  run "base" false (initial "base")
      [Submit "hi" true FetchRaises; Poll; Create OtherException]
  = Some (State "" true true [Message system "base"]
                [Event "hi" "user";
                 Event "An error occurred - unable to complete." "ai";
                 Event "" "done"]
                Polling None).
Proof. split; [|split]; reflexivity. Qed.

(** ** C9 *)

(** C9, at the failing input: when the fetch raises, or answers with a
    status other than 200, [extract_text_from_blog] returns [None] and
    [send_message] raises on line 158, after turning [visible] and
    [remember] off and without touching the global [prompt]. *)
Theorem failed_fetch_raises :
  extract_text_from_blog FetchRaises = None /\
  extract_text_from_blog (Response 404 ["Not Found"]) = None /\
  send_message "http://blog.example/post" true FetchRaises (initial "base")
  = (State "" false false [Message system "base"] [] Polling None, Raised) /\
  send_message "http://blog.example/post" true (Response 404 ["Not Found"])
               (initial "base")
  = (State "" false false [Message system "base"] [] Polling None, Raised) /\
  submitted "http://blog.example/post" FetchRaises = None.
Proof. repeat split. Qed.

(** ** C10 *)

(** C10, at the failing input: with [DEBUG] on, "Hello" is the first text
    ever submitted, [create] first raises an [OpenAIError] about a rate
    limit and then an exception of another class.  The error path sends
    the apology and the one end marker and empties the global [prompt],
    but line 206 then reads the unbound [completion_text]: the thread
    ends instead of going back to polling, and no later text is picked up. *)
Theorem done_sent_but_thread_ends :
  run "base" true (initial "base")
      [Submit "Hello" true FetchRaises; Poll;
       Create (OpenAIError rate_limit_text); Create OtherException]
  = Some (State "" true true [Message system "base"]
                [Event "Hello" "user";
                 Event "An error occurred - unable to complete." "ai";
                 Event "" "done"]
                Dead None) /\
  dones [Event "Hello" "user";
         Event "An error occurred - unable to complete." "ai";
         Event "" "done"] = 1%nat /\
  run "base" true (initial "base")
      [Submit "Hello" true FetchRaises; Poll;
       Create (OpenAIError rate_limit_text); Create OtherException;
       Submit "again" true FetchRaises; Poll]
  = None /\
  picks "base" true (initial "base")
        [Submit "Hello" true FetchRaises; Poll;
         Create (OpenAIError rate_limit_text); Create OtherException;
         Submit "again" true FetchRaises; Poll]
  = ["Hello"].
Proof. split; [|split; [|split]]; reflexivity. Qed.


(** The stream ends, the stream raises, the stream goes on. *)
Lemma done_marks_every_end_witness :
  (step "base" false streaming_hi (Next StopIteration)
   = Some (State "" true true
                 [Message system "base"; Message user "hi"; Message assistant "Hel"]
                 [Event "hi" "user"; Event "Hel" "ai"; Event "" "done"]
                 Polling (Some "Hel")) /\
   ended false streaming_hi
         (State "" true true
                [Message system "base"; Message user "hi"; Message assistant "Hel"]
                [Event "hi" "user"; Event "Hel" "ai"; Event "" "done"]
                Polling (Some "Hel"))) /\
  (step "base" false streaming_hi (Next StreamRaises)
   = Some (State "" true true
                 [Message system "base"]
                 [Event "hi" "user"; Event "Hel" "ai";
                  Event "An error occurred - unable to complete." "ai";
                  Event "" "done"]
                 Polling (Some "Hel")) /\
   ended false streaming_hi
         (State "" true true
                [Message system "base"]
                [Event "hi" "user"; Event "Hel" "ai";
                 Event "An error occurred - unable to complete." "ai";
                 Event "" "done"]
                Polling (Some "Hel"))) /\
  (step "base" false streaming_hi (Next (Delta (Some "lo")))
   = Some (State "hi" true true
                 [Message system "base"; Message user "hi"]
                 [Event "hi" "user"; Event "Hel" "ai"; Event "lo" "ai"]
                 Streaming (Some "Hello")) /\
   dones [Event "hi" "user"; Event "Hel" "ai"; Event "lo" "ai"]
   = dones (emitted streaming_hi)).
Proof.
  split; [|split]; (split; [reflexivity|]).
  - exact (done_marks_every_end "base" false streaming_hi _ (Next StopIteration)
             eq_refl).
  - exact (done_marks_every_end "base" false streaming_hi _ (Next StreamRaises)
             eq_refl).
  - exact (done_marks_every_end "base" false streaming_hi _ (Next (Delta (Some "lo")))
             eq_refl).
Defined.

(** * Further properties *)

Section More.

Variable baseprompt : string.
Variable DEBUG : bool.

Local Notation "'sys'" := (system_message baseprompt).
Local Notation "s '-[' a ']->' s'" := (step baseprompt DEBUG s a = Some s')
  (at level 70, no associativity).
Local Notation "s '=[' tr ']=>' s'" := (run baseprompt DEBUG s tr = Some s')
  (at level 70, no associativity).

(** ** One exchange, start to end *)

(** The state after an exchange that goes through at the first call of
    [create], with no other request handled meanwhile. *)
Lemma exchange_result (s : state) (ds : list (option string)) :
  at_ s = Polling ->
  prompt s <> "" ->
  s =[ exchange ds ]=>
    State "" (visible s) true
          (context s ++ (if remember s then [Message user (prompt s)] else [])
                     ++ [Message assistant (joined (fragments ds))])
          (emitted s ++ (if visible s then [Event (prompt s) "user"] else [])
                     ++ map ai (fragments ds) ++ [done])
          Polling (Some (joined (fragments ds))).
Proof.
  intros Hat Hp. apply String.eqb_neq in Hp.
  destruct s as [pr vis rem ctx em at0 ct]. cbn [at_ prompt] in Hat, Hp. subst at0.
  unfold exchange, deltas.
  rewrite run_cons. unfold step at 1. cbv [at_]. unfold poll. cbv [prompt visible].
  rewrite Hp.
  destruct vis, rem;
    cbv [request emit append set_at set_context context prompt visible remember
         emitted at_ completion_text];
    rewrite run_cons; unfold step at 1; cbv [at_ on_create ask_returns remember];
    cbv [set_remember set_completion_text set_at set_context context prompt
         visible remember emitted at_ completion_text];
    try rewrite pop_snoc;
    rewrite run_app;
    (rewrite (stream_deltas baseprompt DEBUG ds _ "") by reflexivity);
    cbv [prompt visible remember context emitted];
    rewrite run_cons; unfold step at 1; cbv [at_ on_event completion_text];
    unfold finish, run;
    cbv [append emit set_prompt set_at set_context context prompt visible remember
         emitted at_ completion_text];
    rewrite <- ?app_assoc; cbn [app String.append]; destruct DEBUG; reflexivity.
Qed.

Lemma plain_spec (p : string) :
  plain p = true -> p <> "" /\ Py.startswith "http" p = false.
Proof.
  unfold plain. intros H. apply andb_prop in H as [H1 H2].
  apply negb_true_iff in H1, H2. split; [now apply String.eqb_neq | exact H2].
Qed.

(** A plain text is stored as it is; only [visible] changes with it. *)
Lemma submit_plain (p : string) (show : bool) (web : fetched) (s : state) :
  Py.startswith "http" p = false ->
  s -[ Submit p show web ]-> set_prompt p (set_visible show s).
Proof. intros H. unfold step, send_message. now rewrite H. Qed.

(** X1: an exchange that is to be remembered and goes through at the first
    call of [create], with no other request handled meanwhile, appends the
    user turn and the assistant turn to the context, in this order, and
    broadcasts the prompt (when [visible]), then the fragments, then the end
    marker; the global [prompt] is empty afterwards and the thread is back
    at the top of its loop. *)
Theorem remembered_exchange (s : state) (ds : list (option string)) :
  at_ s = Polling ->
  prompt s <> "" ->
  remember s = true ->
  exists s',
    s =[ exchange ds ]=> s' /\
    context s' =
      (context s ++ [Message user (prompt s);
                     Message assistant (joined (fragments ds))])%list /\
    emitted s' =
      (emitted s ++ (if visible s then [Event (prompt s) "user"] else [])
                 ++ map ai (fragments ds) ++ [done])%list /\
    prompt s' = "" /\
    at_ s' = Polling /\
    remember s' = true.
Proof.
  intros Hat Hp Hrem. eexists. split; [now apply exchange_result|].
  simpl. rewrite Hrem. repeat split.
Qed.

(** X2: after a submission that starts with "http", whatever became of its
    fetch, a plain text submitted before the thread has looked is answered
    without its user turn being kept: the context only gains the assistant
    turn. *)
Theorem url_submission_taints_next
  (s : state) (url p : string) (showA show : bool) (webA web : fetched)
  (ds : list (option string)) :
  at_ s = Polling ->
  Py.startswith "http" url = true ->
  plain p = true ->
  exists s',
    s =[ Submit url showA webA :: Submit p show web :: exchange ds ]=> s' /\
    context s' = (context s ++ [Message assistant (joined (fragments ds))])%list /\
    remember s' = true.
Proof.
  intros Hat Hurl Hplain. destruct (plain_spec p Hplain) as [Hne Hnot].
  set (s1 := fst (send_message url showA webA s)).
  assert (F1 : at_ s1 = Polling /\ remember s1 = false /\ context s1 = context s).
  { unfold s1, send_message. rewrite Hurl.
    destruct (extract_text_from_blog webA); simpl; auto. }
  destruct F1 as (Hat1 & Hrem1 & Hctx1).
  set (s2 := set_prompt p (set_visible show s1)).
  eexists. split.
  - rewrite run_cons. unfold step at 1. fold s1.
    rewrite run_cons, (submit_plain p show web s1 Hnot). fold s2.
    apply exchange_result; [exact Hat1 | exact Hne].
  - simpl. rewrite Hrem1, Hctx1. split; reflexivity.
Qed.


(** ** What reaches [ask] and what does not *)

Lemma busy_finish (x : state) : busy (finish DEBUG x) = false.
Proof. apply finish_fields. Qed.

Lemma prompt_finish (x : state) : prompt (finish DEBUG x) = "".
Proof. apply finish_fields. Qed.

(** While the thread is inside an exchange, or the global [prompt] is empty,
    a transition other than a submission keeps it so: leaving an exchange
    empties [prompt] (line 204). *)
Lemma busy_or_empty_step (s s' : state) (a : action) :
  is_submit a = false ->
  s -[ a ]-> s' ->
  busy s = true \/ prompt s = "" ->
  busy s' = true \/ prompt s' = "".
Proof.
  intros Ha Hstep [Hb|He].
  - unfold step in Hstep. unfold busy in Hb.
    destruct a as [|p show web| |r|e]; try discriminate.
    + injection Hstep as <-. left. exact Hb.
    + destruct (at_ s); discriminate.
    + destruct (at_ s) eqn:Hat; try discriminate. injection Hstep as <-.
      destruct r as [|str_e|]; simpl; [| |right; apply prompt_finish].
      * unfold ask_returns. destruct (remember s); [now left|].
        simpl. destruct (Py.pop (context s)); [now left|].
        right; apply prompt_finish.
      * unfold ask_except.
        destruct (Py.pop (context s)) as [ctx|]; [|right; apply prompt_finish].
        destruct (Py.contains _ str_e); [|now left].
        destruct (ladder baseprompt p ctx) as [[p' ctx'] notices]. now left.
    + destruct (at_ s) eqn:Hat; try discriminate. injection Hstep as <-.
      destruct e as [[chunk|]| |]; simpl; try (right; apply prompt_finish).
      * destruct (completion_text s); [|right; apply prompt_finish].
        left. unfold busy. simpl. now rewrite Hat.
      * left. unfold busy. now rewrite Hat.
      * destruct (completion_text s); right; apply prompt_finish.
  - destruct (prompt_kept_or_cleared baseprompt DEBUG s s' a Ha Hstep) as [E|E];
      right; congruence.
Qed.

Lemma picks_nothing (tr : list action) :
  no_submit tr = true ->
  forall s, busy s = true \/ prompt s = "" -> picks baseprompt DEBUG s tr = [].
Proof.
  induction tr as [|a tr IH]; intros Htr s Hs; [reflexivity|].
  unfold no_submit in Htr. simpl in Htr. apply andb_prop in Htr as [Ha Htr].
  apply negb_true_iff in Ha. simpl.
  assert (Hp : picked s a = []).
  { unfold picked. destruct a; try reflexivity.
    destruct (at_ s) eqn:Hat; try reflexivity.
    destruct Hs as [Hb|He].
    - unfold busy in Hb. rewrite Hat in Hb. discriminate.
    - now rewrite He. }
  rewrite Hp. simpl.
  destruct (step baseprompt DEBUG s a) as [s1|] eqn:Hstep; [|reflexivity].
  apply IH; [exact Htr|]. now apply (busy_or_empty_step s s1 a).
Qed.

(** X4: a text submitted while the thread is inside an exchange is never
    handed to [ask]: line 204 empties the global [prompt] when the exchange
    ends, whatever was put there meanwhile. *)
Theorem submission_while_busy_is_lost
  (s : state) (p : string) (show : bool) (web : fetched) (tr : list action) :
  busy s = true ->
  no_submit tr = true ->
  picks baseprompt DEBUG s (Submit p show web :: tr) = [].
Proof.
  intros Hb Htr. simpl. apply picks_nothing; [exact Htr|]. left.
  unfold busy, send_message in *.
  destruct (Py.startswith "http" p); [destruct (extract_text_from_blog web)|];
    exact Hb.
Qed.

(** X5: submitting the empty text withdraws whatever was pending: the
    global [prompt] is empty afterwards and nothing is handed to [ask]
    until the next submission. *)
Theorem empty_submission_withdraws
  (s : state) (show : bool) (web : fetched) (tr : list action) :
  no_submit tr = true ->
  (exists s1, s -[ Submit "" show web ]-> s1 /\ prompt s1 = "") /\
  picks baseprompt DEBUG s (Submit "" show web :: tr) = [].
Proof.
  intros Htr. split.
  - eexists. split; reflexivity.
  - simpl. apply picks_nothing; [exact Htr|]. now right.
Qed.

(** ** One end marker for each text picked up *)

Lemma dones_finish (x : state) :
  (dones (emitted (finish DEBUG x)) + in_exchange (finish DEBUG x)
   = dones (emitted x) + 1)%nat.
Proof.
  destruct (finish_fields DEBUG x) as (_ & He & _ & _ & _ & Hb).
  unfold in_exchange. rewrite He, Hb, dones_snoc. simpl. lia.
Qed.

Lemma dones_finish_recover (x : state) :
  (dones (emitted (finish DEBUG (recover baseprompt x)))
   + in_exchange (finish DEBUG (recover baseprompt x))
   = dones (emitted x) + 1)%nat.
Proof.
  rewrite dones_finish. simpl. rewrite dones_snoc. simpl. lia.
Qed.

Lemma accounting_step (s s' : state) (a : action) :
  s -[ a ]-> s' ->
  (dones (emitted s') + in_exchange s'
   = dones (emitted s) + in_exchange s + length (picked s a))%nat.
Proof.
  intros Hstep. unfold step in Hstep. unfold picked.
  destruct a as [|p show web| |r|e].
  - injection Hstep as <-. unfold in_exchange, busy. simpl. lia.
  - injection Hstep as <-. unfold send_message, in_exchange, busy.
    destruct (Py.startswith "http" p); [destruct (extract_text_from_blog web)|];
      simpl; try rewrite dones_snoc; simpl; lia.
  - destruct (at_ s) eqn:Hat; try discriminate. injection Hstep as <-.
    assert (Hin : in_exchange s = 0%nat)
      by (unfold in_exchange, busy; now rewrite Hat).
    rewrite Hin. unfold poll. destruct (prompt s =? "")%string.
    + unfold in_exchange, busy. rewrite Hat. simpl. lia.
    + unfold in_exchange, busy. destruct (visible s); simpl;
        try rewrite dones_snoc; simpl; lia.
  - destruct (at_ s) eqn:Hat; try discriminate. injection Hstep as <-.
    assert (Hin : in_exchange s = 1%nat)
      by (unfold in_exchange, busy; now rewrite Hat).
    rewrite Hin.
    destruct r as [|str_e|]; simpl.
    + unfold ask_returns. destruct (remember s); [unfold in_exchange, busy; simpl; lia|].
      simpl. destruct (Py.pop (context s)); [unfold in_exchange, busy; simpl; lia|].
      rewrite (dones_finish_recover (set_remember true s)). simpl. lia.
    + unfold ask_except.
      destruct (Py.pop (context s)) as [ctx|];
        [|rewrite dones_finish_recover; lia].
      destruct (Py.contains _ str_e); [|unfold in_exchange, busy; simpl; lia].
      unfold ladder. destruct (1000 <? Py.len p); [unfold in_exchange, busy; simpl; lia|].
      destruct (4 <? length ctx)%nat; [unfold in_exchange, busy; simpl; lia|].
      unfold in_exchange, busy. simpl. rewrite dones_snoc. simpl. lia.
    + rewrite dones_finish_recover. lia.
  - destruct (at_ s) eqn:Hat; try discriminate. injection Hstep as <-.
    assert (Hin : in_exchange s = 1%nat)
      by (unfold in_exchange, busy; now rewrite Hat).
    rewrite Hin.
    destruct e as [[chunk|]| |]; simpl.
    + destruct (completion_text s); [|rewrite dones_finish_recover; lia].
      unfold in_exchange, busy. simpl. rewrite Hat, dones_snoc. simpl. lia.
    + unfold in_exchange, busy. rewrite Hat. lia.
    + destruct (completion_text s); [|rewrite dones_finish_recover; lia].
      rewrite dones_finish. simpl. lia.
    + rewrite dones_finish_recover. lia.
Qed.

(** X6: along every run, with requests interleaved at will, the number of
    end markers broadcast is the number of texts handed to [ask], less the
    one exchange that may still be going on: every text picked up gets its
    end marker, and no end marker is sent without one. *)
Theorem one_done_per_pick (tr : list action) (s s' : state) :
  s =[ tr ]=> s' ->
  (dones (emitted s') + in_exchange s'
   = dones (emitted s) + in_exchange s + length (picks baseprompt DEBUG s tr))%nat.
Proof.
  revert s; induction tr as [|a tr IH]; intros s Hrun.
  - injection Hrun as <-. simpl. lia.
  - rewrite run_cons in Hrun. simpl.
    destruct (step baseprompt DEBUG s a) as [s1|] eqn:Hstep; [|discriminate].
    rewrite (IH s1 Hrun), (accounting_step s s1 a Hstep), length_app. lia.
Qed.

(** ** The thread stays alive *)

Lemma completion_text_finish (x : state) :
  completion_text (finish DEBUG x) = completion_text x.
Proof.
  unfold finish; simpl.
  destruct DEBUG; [destruct (completion_text x) eqn:E|]; simpl; auto.
Qed.

Lemma alive_finish (x : state) :
  DEBUG = false \/ completion_text x <> None ->
  at_ (finish DEBUG x) <> Dead /\
  (DEBUG = false \/ completion_text (finish DEBUG x) <> None).
Proof.
  intros H. destruct (finish_fields DEBUG x) as (_ & _ & _ & _ & Ha & _).
  rewrite (Ha H), completion_text_finish. split; [discriminate | exact H].
Qed.

Lemma alive_step (s s' : state) (a : action) :
  DEBUG = false \/ completion_text s <> None ->
  s -[ a ]-> s' ->
  at_ s <> Dead ->
  at_ s' <> Dead /\ (DEBUG = false \/ completion_text s' <> None).
Proof.
  intros Hd Hstep Hlive. unfold step in Hstep.
  assert (Hbound : forall t : string, DEBUG = false \/ Some t <> None)
    by (intros t; right; discriminate).
  destruct a as [|p show web| |r|e].
  - injection Hstep as <-. auto.
  - injection Hstep as <-. unfold send_message.
    destruct (Py.startswith "http" p); [destruct (extract_text_from_blog web)|];
      auto.
  - destruct (at_ s) eqn:Hat; try discriminate. injection Hstep as <-.
    unfold poll. destruct (prompt s =? "")%string; [now rewrite Hat|].
    destruct (visible s); simpl; (split; [discriminate | exact Hd]).
  - destruct (at_ s) eqn:Hat; try discriminate. injection Hstep as <-.
    destruct r as [|str_e|]; simpl.
    + unfold ask_returns. destruct (remember s).
      * simpl. split; [discriminate | apply Hbound].
      * simpl. destruct (Py.pop (context s)).
        -- simpl. split; [discriminate | apply Hbound].
        -- apply alive_finish. exact Hd.
    + unfold ask_except.
      destruct (Py.pop (context s)) as [ctx|]; [|now apply alive_finish].
      destruct (Py.contains _ str_e); [|split; [discriminate | exact Hd]].
      destruct (ladder baseprompt p ctx) as [[p' ctx'] notices].
      split; [discriminate|].
      simpl. clear - Hd. revert s Hd.
      induction notices as [|n ns IH]; intros s Hd; simpl; [exact Hd|].
      apply (IH (emit n s)). exact Hd.
    + now apply alive_finish.
  - destruct (at_ s) eqn:Hat; try discriminate. injection Hstep as <-.
    destruct e as [[chunk|]| |]; simpl.
    + destruct (completion_text s) eqn:Hct;
        [|apply alive_finish; simpl; rewrite ?Hct; exact Hd].
      simpl. rewrite Hat. split; [discriminate | apply Hbound].
    + rewrite Hat. split; [discriminate | exact Hd].
    + destruct (completion_text s) eqn:Hct; apply alive_finish; simpl;
        rewrite ?Hct; auto.
    + now apply alive_finish.
Qed.

(** X7: the thread can only end while [completion_text] has never been
    bound: from a state where [DEBUG] is off, or where line 184 has run at
    least once, no run ends the thread, whatever the provider and the
    request handlers do. *)
Theorem thread_stays_alive (tr : list action) (s s' : state) :
  DEBUG = false \/ completion_text s <> None ->
  at_ s <> Dead ->
  s =[ tr ]=> s' ->
  at_ s' <> Dead.
Proof.
  revert s; induction tr as [|a tr IH]; intros s Hd Hlive Hrun.
  - now injection Hrun as <-.
  - rewrite run_cons in Hrun.
    destruct (step baseprompt DEBUG s a) as [s1|] eqn:Hstep; [|discriminate].
    destruct (alive_step s s1 a Hd Hstep Hlive) as [Hlive1 Hd1].
    now apply (IH s1).
Qed.

(** ** [context.pop()] always finds a turn *)

Lemma finish_not_requesting (x : state) (p : string) :
  at_ (finish DEBUG x) <> Requesting p.
Proof.
  pose proof (busy_finish x) as H. unfold busy in H.
  intros E. rewrite E in H. discriminate.
Qed.

Lemma snoc_not_nil {A} (l : list A) (x : A) : (l ++ [x])%list <> [].
Proof. intros E. now apply app_eq_nil in E as [_ E]. Qed.

Lemma in_flight_step (s s' : state) (a : action) :
  (forall p, at_ s = Requesting p -> context s <> []) ->
  s -[ a ]-> s' ->
  forall p, at_ s' = Requesting p -> context s' <> [].
Proof.
  intros Hs Hstep q Hq. unfold step in Hstep.
  destruct a as [|p show web| |r|e].
  - injection Hstep as <-. discriminate.
  - injection Hstep as <-. revert Hq. unfold send_message.
    destruct (Py.startswith "http" p); [destruct (extract_text_from_blog web)|];
      simpl; apply Hs.
  - destruct (at_ s) eqn:Hat; try discriminate. injection Hstep as <-.
    revert Hq. unfold poll. destruct (prompt s =? "")%string.
    + rewrite Hat. discriminate.
    + intros _. destruct (visible s); apply snoc_not_nil.
  - destruct (at_ s) eqn:Hat; try discriminate. injection Hstep as <-.
    revert Hq. destruct r as [|str_e|]; simpl.
    + unfold ask_returns. destruct (remember s); [discriminate|].
      simpl. destruct (Py.pop (context s)); [discriminate|].
      intros Hq. now apply finish_not_requesting in Hq.
    + unfold ask_except. destruct (Py.pop (context s)) as [ctx|].
      * intros _. destruct (Py.contains _ str_e); [|apply snoc_not_nil].
        destruct (ladder baseprompt p ctx) as [[p' ctx'] notices].
        apply snoc_not_nil.
      * intros Hq. now apply finish_not_requesting in Hq.
    + intros Hq. now apply finish_not_requesting in Hq.
  - destruct (at_ s) eqn:Hat; try discriminate. injection Hstep as <-.
    revert Hq. destruct e as [[chunk|]| |]; simpl.
    + destruct (completion_text s); simpl.
      * rewrite Hat. discriminate.
      * intros Hq. now apply finish_not_requesting in Hq.
    + rewrite Hat. discriminate.
    + destruct (completion_text s); intros Hq;
        now apply finish_not_requesting in Hq.
    + intros Hq. now apply finish_not_requesting in Hq.
Qed.

(** X8: in every state reached from the initial one, with page loads and
    submissions interleaved at will, the context is non-empty while a call
    of [create] is in flight, so the [context.pop()] of line 89 and of
    line 107 never raises [IndexError]. *)
Theorem pop_always_finds_a_turn (tr : list action) (s : state) (p : string) :
  initial baseprompt =[ tr ]=> s ->
  at_ s = Requesting p ->
  exists ctx, Py.pop (context s) = Some ctx.
Proof.
  intros Hrun Hat. apply pop_nonempty.
  assert (Hgen : forall tr s0,
             (forall q, at_ s0 = Requesting q -> context s0 <> []) ->
             s0 =[ tr ]=> s ->
             forall q, at_ s = Requesting q -> context s <> []).
  { clear. induction tr as [|a tr IH]; intros s0 H0 Hrun.
    - now injection Hrun as <-.
    - rewrite run_cons in Hrun.
      destruct (step baseprompt DEBUG s0 a) as [s1|] eqn:Hstep; [|discriminate].
      apply (IH s1); [|exact Hrun]. now apply (in_flight_step s0 s1 a). }
  apply (Hgen tr (initial baseprompt)) with (q := p); auto.
  intros q Hq. discriminate Hq.
Qed.

(** ** The loop of [ask] does not give up *)

Lemma retry_unchanged (s : state) (p str_e : string) (ctx : list message) :
  at_ s = Requesting p ->
  context s = (ctx ++ [Message user p])%list ->
  Py.contains "maximum context length" str_e = false ->
  s -[ Create (OpenAIError str_e) ]-> s.
Proof.
  intros Hat Hctx Hno. unfold step. rewrite Hat. simpl.
  unfold ask_except. rewrite Hctx, pop_snoc, Hno. f_equal.
  destruct s; simpl in *; subst; reflexivity.
Qed.

(** X9: however many times in a row [create] raises errors whose texts lack
    "maximum context length", the loop of [ask] calls it again, and the
    state after them is the state before them: there is no bound on the
    number of calls, no delay, nothing broadcast. *)
Theorem other_errors_are_retried_without_end
  (errs : list string) (s : state) (p : string) (ctx : list message) :
  at_ s = Requesting p ->
  context s = (ctx ++ [Message user p])%list ->
  forallb (fun e => negb (Py.contains "maximum context length" e)) errs = true ->
  s =[ map (fun e => Create (OpenAIError e)) errs ]=> s.
Proof.
  intros Hat Hctx. induction errs as [|e errs IH]; intros Herrs; [reflexivity|].
  simpl in Herrs. apply andb_prop in Herrs as [He Herrs].
  apply negb_true_iff in He.
  cbn [map]. rewrite run_cons, (retry_unchanged s p e ctx Hat Hctx He).
  now apply IH.
Qed.

(** X10: with a prompt of at most 1000 characters on top of the system
    turn alone, every overflow error is answered by '[Memory Reset]' and the
    same call of [create] again: after [n] of them the state is the one
    before them with [n] notices sent. *)
Theorem overflow_at_minimum_repeats (n : nat) (s : state) (p str_e : string) :
  at_ s = Requesting p ->
  context s = [sys; Message user p] ->
  Py.len p <= 1000 ->
  Py.contains "maximum context length" str_e = true ->
  s =[ repeat (Create (OpenAIError str_e)) n ]=> sent (repeat memory_reset n) s.
Proof.
  intros Hat Hctx Hshort Hmax. apply Z.ltb_ge in Hshort.
  revert s Hat Hctx. induction n as [|n IH]; intros s Hat Hctx.
  - simpl. unfold sent. rewrite app_nil_r. now destruct s.
  - cbn [repeat]. rewrite run_cons.
    assert (Hstep : s -[ Create (OpenAIError str_e) ]-> sent [memory_reset] s).
    { unfold step. rewrite Hat. simpl. unfold ask_except.
      rewrite Hctx. change [sys; Message user p] with ([sys] ++ [Message user p])%list.
      rewrite pop_snoc, Hmax. unfold ladder. rewrite Hshort. simpl. f_equal.
      destruct s; simpl in *; subst; reflexivity. }
    rewrite Hstep, (IH (sent [memory_reset] s) Hat Hctx).
    unfold sent. simpl. now rewrite <- app_assoc.
Qed.

End More.

(** ** Submissions that start with "http" *)

(** X11: for a text starting with "http" the show flag plays no part and
    [visible] and [remember] are off afterwards in every case; the handler
    returns exactly when the fetch answered with status 200, and then the
    global [prompt] is the fixed request followed by the paragraphs, one
    per line, and the reading notice has been sent; otherwise it raises
    with the global [prompt] and the log of sent events untouched. *)
Theorem url_submission (s : state) (p : string) (show show' : bool) (web : fetched) :
  Py.startswith "http" p = true ->
  send_message p show web s = send_message p show' web s /\
  visible (fst (send_message p show web s)) = false /\
  remember (fst (send_message p show web s)) = false /\
  context (fst (send_message p show web s)) = context s /\
  match web with
  | Response 200 paragraphs =>
      snd (send_message p show web s) = Returned /\
      prompt (fst (send_message p show web s))
      = "Summarize the following text:" ++ Py.nl ++ Py.join Py.nl paragraphs /\
      emitted (fst (send_message p show web s))
      = (emitted s ++ [Event ("[Reading: " ++ p ++ "]") "user"])%list
  | _ =>
      snd (send_message p show web s) = Raised /\
      prompt (fst (send_message p show web s)) = prompt s /\
      emitted (fst (send_message p show web s)) = emitted s
  end.
Proof.
  intros Hurl. unfold send_message. rewrite Hurl.
  destruct web as [status_code paragraphs|]; simpl.
  - destruct (Z.eqb_spec status_code 200) as [->|Hne]; simpl.
    + repeat split.
    + assert (H : forall P Q : Prop, Q ->
                match status_code with 200 => P | _ => Q end).
      { intros P Q HQ.
        destruct status_code as [|q|q]; try exact HQ.
        do 8 (destruct q as [q|q|]; try exact HQ). congruence. }
      repeat split. apply H. repeat split.
  - repeat split.
Qed.

(** ** Line 93 *)

(** X12: cutting the middle out of a text of [n] characters leaves
    [n/4 + 5 + ceil(n/4)] characters; for a text of more than 1000
    characters the result has at most 1000, so that one round of the
    ladder is enough for it, exactly when [n] is at most 1991. *)
Theorem cut_middle_length (p : string) :
  Py.len (cut_middle p) = Py.len p / 4 + 5 + (Py.len p + 3) / 4 /\
  (1000 < Py.len p -> (Py.len (cut_middle p) <= 1000 <-> Py.len p <= 1991)).
Proof.
  assert (H : Py.len (cut_middle p) = Py.len p / 4 + 5 + (Py.len p + 3) / 4).
  { rewrite cut_middle_quarters. unfold Py.len.
    rewrite !length_append, length_first_quarter, length_last_quarter.
    change (String.length " ... ") with 5%nat.
    rewrite !Nat2Z.inj_add, !Nat2Z.inj_div, Nat2Z.inj_add.
    change (Z.of_nat 4) with 4; change (Z.of_nat 3) with 3;
      change (Z.of_nat 5) with 5. lia. }
  split; [exact H|]. intros Hlong. rewrite H.
  split; intros; Z.to_euclidean_division_equations; lia.
Qed.

(** X15: line 93 keeps the two ends of the prompt and drops what lies
    between them: the prompt is a first part of [n/4] characters, a middle
    and a last part of [ceil(n/4)] characters, and the cut text is the
    first part, " ... " and the last part. *)
Theorem cut_middle_keeps_ends (p : string) :
  exists first middle last,
    p = first ++ middle ++ last /\
    cut_middle p = first ++ " ... " ++ last /\
    Py.len first = Py.len p / 4 /\
    Py.len last = (Py.len p + 3) / 4.
Proof.
  destruct (quarters_are_ends p) as (middle & Hp).
  exists (first_quarter p), middle, (last_quarter p).
  split; [exact Hp|]. split; [apply cut_middle_quarters|].
  unfold Py.len. rewrite length_first_quarter, length_last_quarter.
  rewrite !Nat2Z.inj_div, Nat2Z.inj_add. split; reflexivity.
Qed.

(** ** Line 90 *)

Lemma prefix_iff (a b : string) :
  String.prefix a b = true <-> exists post, b = a ++ post.
Proof.
  revert b; induction a as [|x a IH]; intros b.
  - split; [intros _; now exists b | intros _; now destruct b].
  - destruct b as [|y b]; simpl.
    + split; [discriminate | intros (post & H); discriminate H].
    + destruct (ascii_dec x y) as [->|Hne].
      * rewrite IH. split; intros (post & H); exists post.
        -- now rewrite H.
        -- now injection H.
      * split; [discriminate|]. intros (post & H). injection H as H _.
        now destruct Hne.
Qed.

(** X13: the test of line 90 holds exactly when the error text can be split
    around the phrase: it is a plain substring test, wherever the phrase
    stands and whatever surrounds it. *)
Theorem contains_iff_substring (needle hay : string) :
  Py.contains needle hay = true <-> exists pre post, hay = pre ++ needle ++ post.
Proof.
  induction hay as [|c hay IH].
  - cbn [Py.contains]. rewrite orb_false_r, prefix_iff. split.
    + intros (post & H). now exists "", post.
    + intros (pre & post & H). destruct pre; [now exists post|discriminate].
  - cbn [Py.contains]. rewrite orb_true_iff, prefix_iff, IH. split.
    + intros [(post & H)|(pre & post & H)].
      * now exists "", post.
      * exists (String c pre), post. simpl. now rewrite H.
    + intros (pre & post & H). destruct pre as [|d pre].
      * left. now exists post.
      * right. injection H as _ H. now exists pre, post.
Qed.

(** ** [string_to_hex] *)

Example string_to_hex_ascii :
  string_to_hex (code_points "Hi!") = ["0x48"; "0x69"; "0x21"].
Proof. reflexivity. Qed.

Example string_to_hex_euro : string_to_hex [8364%N] = ["0x20ac"].
Proof. reflexivity. Qed.

(** X14: [string_to_hex] gives one entry per character, each starting with
    "0x", and reading each entry back in base 16 gives the characters
    again, whatever their code points. *)
Theorem string_to_hex_round_trip (input_string : list character) :
  hex_to_string (string_to_hex input_string) = input_string /\
  length (string_to_hex input_string) = length input_string /\
  Forall (fun h => Py.startswith "0x" h = true) (string_to_hex input_string).
Proof.
  unfold hex_to_string, string_to_hex, hex, int16, chr, ord. split; [|split].
  - rewrite map_map. rewrite (map_ext _ (fun c => c)); [apply map_id|].
    intros c. apply HexString.to_N_of_N.
  - apply length_map.
  - apply Forall_map, Forall_forall. intros c _.
    unfold Py.startswith. apply prefix_iff.
    destruct c; eexists; reflexivity.
Qed.

(** The value under 'version' is [VERSION] itself exactly when [DEBUG] is
    off. *)
Lemma version_tells_debug (DEBUG : bool) : version DEBUG = VERSION <-> DEBUG = false.
Proof. destruct DEBUG; simpl; split; (reflexivity || discriminate). Qed.

(** ** Instances *)

(** "Hello", visible and remembered, answered by "Hi there". *)
Lemma remembered_exchange_witness :
  at_ hello_pending = Polling /\
  prompt hello_pending <> "" /\
  remember hello_pending = true /\
  exists s',
    run "base" false hello_pending (exchange two_fragments) = Some s' /\
    context s' =
      (context hello_pending ++
       [Message user (prompt hello_pending);
        Message assistant (joined (fragments two_fragments))])%list /\
    emitted s' =
      (emitted hello_pending ++
       (if visible hello_pending then [Event (prompt hello_pending) "user"] else [])
       ++ map ai (fragments two_fragments) ++ [done])%list /\
    prompt s' = "" /\
    at_ s' = Polling /\
    remember s' = true.
Proof.
  assert (H : prompt hello_pending <> "") by (simpl; discriminate).
  split; [reflexivity|]. split; [exact H|]. split; [reflexivity|].
  apply (remembered_exchange "base" false hello_pending two_fragments);
    [reflexivity | exact H | reflexivity].
Defined.

(** A blog whose fetch fails, then "Hello" before the thread has looked. *)
Lemma url_submission_taints_next_witness :
  at_ (initial "base") = Polling /\
  Py.startswith "http" "http://blog.example/post" = true /\
  plain "Hello" = true /\
  exists s',
    run "base" false (initial "base")
        (Submit "http://blog.example/post" true FetchRaises ::
         Submit "Hello" true FetchRaises :: exchange two_fragments) = Some s' /\
    context s' =
      (context (initial "base") ++
       [Message assistant (joined (fragments two_fragments))])%list /\
    remember s' = true.
Proof.
  split; [reflexivity|]. split; [reflexivity|]. split; [reflexivity|].
  apply (url_submission_taints_next "base" false (initial "base")
           "http://blog.example/post" "Hello" true true FetchRaises FetchRaises
           two_fragments); reflexivity.
Defined.


(** "more" arrives while "hi" is being answered. *)
Lemma submission_while_busy_is_lost_witness :
  busy streaming_hi = true /\
  no_submit [Next (Delta (Some "lo")); Next StopIteration; Poll; Poll] = true /\
  picks "base" false streaming_hi
        (Submit "more" true FetchRaises ::
         [Next (Delta (Some "lo")); Next StopIteration; Poll; Poll]) = [].
Proof.
  split; [reflexivity|]. split; [reflexivity|].
  apply (submission_while_busy_is_lost "base" false streaming_hi "more" true
           FetchRaises [Next (Delta (Some "lo")); Next StopIteration; Poll; Poll]);
    reflexivity.
Defined.

(** "Hello" is pending when the empty text arrives. *)
Lemma empty_submission_withdraws_witness :
  no_submit [Poll; PageLoad; Poll] = true /\
  (exists s1, step "base" false hello_pending (Submit "" true FetchRaises) = Some s1 /\
              prompt s1 = "") /\
  picks "base" false hello_pending
        (Submit "" true FetchRaises :: [Poll; PageLoad; Poll]) = [].
Proof.
  split; [reflexivity|].
  apply (empty_submission_withdraws "base" false hello_pending true FetchRaises
           [Poll; PageLoad; Poll]); reflexivity.
Defined.

(** One exchange ended, a second one under way: one end marker, two picks. *)
Lemma one_done_per_pick_witness :
  exists s',
    run "base" false (initial "base")
        [Submit "hi" true FetchRaises; Poll; Create Created; Next StreamRaises;
         Submit "again" true FetchRaises; Poll] = Some s' /\
    (dones (emitted s') + in_exchange s'
     = dones (emitted (initial "base")) + in_exchange (initial "base")
       + length (picks "base" false (initial "base")
                   [Submit "hi" true FetchRaises; Poll; Create Created;
                    Next StreamRaises; Submit "again" true FetchRaises; Poll]))%nat /\
    dones (emitted s') = 1%nat /\ in_exchange s' = 1%nat.
Proof.
  eexists. split; [reflexivity|]. split; [|split; reflexivity].
  apply (one_done_per_pick "base" false
           [Submit "hi" true FetchRaises; Poll; Create Created; Next StreamRaises;
            Submit "again" true FetchRaises; Poll] (initial "base")).
  reflexivity.
Defined.

(** With [DEBUG] on and [completion_text] bound, two failures in a row. *)
Lemma thread_stays_alive_witness :
  (true = false \/ completion_text streaming_hi <> None) /\
  at_ streaming_hi <> Dead /\
  exists s',
    run "base" true streaming_hi
        [Next StreamRaises; Submit "again" true FetchRaises; Poll;
         Create OtherException] = Some s' /\
    at_ s' <> Dead.
Proof.
  assert (H1 : true = false \/ completion_text streaming_hi <> None)
    by (right; simpl; discriminate).
  assert (H2 : at_ streaming_hi <> Dead) by (simpl; discriminate).
  split; [exact H1|]. split; [exact H2|].
  eexists. split; [reflexivity|].
  apply (thread_stays_alive "base" true
           [Next StreamRaises; Submit "again" true FetchRaises; Poll;
            Create OtherException] streaming_hi _ H1 H2).
  reflexivity.
Defined.

(** A page load while [create] is in flight: the pop still finds a turn. *)
Lemma pop_always_finds_a_turn_witness :
  run "base" false (initial "base") [Submit "hi" true FetchRaises; Poll; PageLoad]
  = Some (State "hi" true true [Message system "base"] [Event "hi" "user"]
                (Requesting "hi") None) /\
  exists ctx, Py.pop [Message system "base"] = Some ctx.
Proof.
  split; [reflexivity|].
  apply (pop_always_finds_a_turn "base" false
           [Submit "hi" true FetchRaises; Poll; PageLoad]
           (State "hi" true true [Message system "base"] [Event "hi" "user"]
                  (Requesting "hi") None) "hi"); reflexivity.
Defined.

(** Three errors in a row that are not about the context length. *)
Lemma other_errors_are_retried_without_end_witness :
  at_ asking_hi = Requesting "hi" /\
  context asking_hi = ([Message system "base"] ++ [Message user "hi"])%list /\
  forallb (fun e => negb (Py.contains "maximum context length" e))
          [rate_limit_text; "Connection refused"; rate_limit_text] = true /\
  run "base" false asking_hi
      (map (fun e => Create (OpenAIError e))
           [rate_limit_text; "Connection refused"; rate_limit_text])
  = Some asking_hi.
Proof.
  split; [reflexivity|]. split; [reflexivity|]. split; [reflexivity|].
  apply (other_errors_are_retried_without_end "base" false
           [rate_limit_text; "Connection refused"; rate_limit_text]
           asking_hi "hi" [Message system "base"]); reflexivity.
Defined.

(** Five overflows in a row on "hi" and the system turn. *)
Lemma overflow_at_minimum_repeats_witness :
  at_ asking_hi = Requesting "hi" /\
  context asking_hi = [Message system "base"; Message user "hi"] /\
  Py.len "hi" <= 1000 /\
  Py.contains "maximum context length" overflow_text = true /\
  run "base" false asking_hi (repeat (Create (OpenAIError overflow_text)) 5)
  = Some (sent (repeat memory_reset 5) asking_hi).
Proof.
  assert (H : Py.len "hi" <= 1000) by (vm_compute; discriminate).
  split; [reflexivity|]. split; [reflexivity|]. split; [exact H|].
  split; [reflexivity|].
  apply (overflow_at_minimum_repeats "base" false 5 asking_hi "hi" overflow_text);
    [reflexivity | reflexivity | exact H | reflexivity].
Defined.

(** A blog that is found and a blog that is not. *)
Lemma url_submission_witness :
  Py.startswith "http" "http://blog.example/post" = true /\
  (snd (send_message "http://blog.example/post" true
                     (Response 200 ["Once"; "upon a time"]) hello_pending)
   = Returned /\
   prompt (fst (send_message "http://blog.example/post" true
                             (Response 200 ["Once"; "upon a time"]) hello_pending))
   = "Summarize the following text:" ++ Py.nl ++ Py.join Py.nl ["Once"; "upon a time"] /\
   emitted (fst (send_message "http://blog.example/post" true
                              (Response 200 ["Once"; "upon a time"]) hello_pending))
   = (emitted hello_pending ++
      [Event ("[Reading: " ++ "http://blog.example/post" ++ "]") "user"])%list) /\
  (snd (send_message "http://blog.example/post" true (Response 404 []) hello_pending)
   = Raised /\
   prompt (fst (send_message "http://blog.example/post" true (Response 404 [])
                             hello_pending)) = prompt hello_pending /\
   emitted (fst (send_message "http://blog.example/post" true (Response 404 [])
                              hello_pending)) = emitted hello_pending).
Proof.
  split; [reflexivity|]. split.
  - apply (url_submission hello_pending "http://blog.example/post" true false
             (Response 200 ["Once"; "upon a time"])). reflexivity.
  - apply (url_submission hello_pending "http://blog.example/post" true false
             (Response 404 [])). reflexivity.
Defined.

(** 1004 characters become 507. *)
Lemma cut_middle_length_witness :
  1000 < Py.len long_prompt /\
  Py.len (cut_middle long_prompt)
  = Py.len long_prompt / 4 + 5 + (Py.len long_prompt + 3) / 4 /\
  (Py.len (cut_middle long_prompt) <= 1000 <-> Py.len long_prompt <= 1991).
Proof.
  assert (H : 1000 < Py.len long_prompt) by reflexivity.
  split; [exact H|].
  destruct (cut_middle_length long_prompt) as [H1 H2].
  split; [exact H1 | exact (H2 H)].
Defined.

(** The phrase inside the text of an overflow error. *)
Lemma contains_iff_substring_witness :
  (exists pre post, overflow_text = pre ++ "maximum context length" ++ post) /\
  Py.contains "maximum context length" overflow_text = true.
Proof.
  assert (H : exists pre post,
             overflow_text = pre ++ "maximum context length" ++ post)
    by (exists "This model's ", " is 4097 tokens"; reflexivity).
  split; [exact H|].
  apply (proj2 (contains_iff_substring "maximum context length" overflow_text)).
  exact H.
Defined.
